(** * Stripe payment-request utilities of the checkout blocks

    A shallow embedding of [client/blocks/stripe-utils/utils.js]:
    the settings accessors, the payment-request builder and updater, the
    capability probe, the error-message lookup and the address plucker,
    followed by the properties stated about them. *)

From stdpp Require Import gmap strings list fin_maps pretty.
From Stdlib Require Import ZArith Ascii.

Set Warnings "-register-all".
Local Open Scope string_scope.

(** ** JavaScript values *)

(** The values the utilities handle.  [JNum n] is the integer [n] (amounts
    are integers in minor units) and [JNaN] the not-a-number value; an
    object is the finite map of its own properties, an array the list of
    its elements.  [JBuiltin name] is an object of the engine itself, known
    by its name: [Object.prototype], or one of the functions it holds. *)
Inductive jsval : Type :=
| JUndefined
| JNull
| JBool (b : bool)
| JNum (n : Z)
| JNaN
| JStr (s : string)
| JObj (props : gmap string jsval)
| JArr (elems : list jsval)
| JBuiltin (name : string).

(** What a [throw] carries: [new Error(msg)], or the engine's TypeError. *)
Inductive exn : Type :=
| Error (message : string)
| TypeError (message : string).

(** The outcome of evaluating a piece of code: a value, or an exception. *)
Inductive completion (A : Type) : Type :=
| Return (a : A)
| Throw (e : exn).
Arguments Return {A} a.
Arguments Throw {A} e.

#[global] Instance completion_ret : MRet completion := fun A a => Return a.
#[global] Instance completion_bind : MBind completion := fun A B f m =>
  match m with
  | Return a => f a
  | Throw e => Throw e
  end.
#[global] Instance completion_fmap : FMap completion := fun A B f m =>
  match m with
  | Return a => Return (f a)
  | Throw e => Throw e
  end.

Definition throws {A : Type} (m : completion A) : bool :=
  match m with
  | Return _ => false
  | Throw _ => true
  end.

(** The eventual state of a promise. *)
Inductive promise (A : Type) : Type :=
| Pending
| Fulfilled (value : A)
| Rejected (reason : jsval).
Arguments Pending {A}.
Arguments Fulfilled {A} value.
Arguments Rejected {A} reason.

(** ToBoolean: [undefined], [null], [false], [0], [NaN] and the empty
    string are falsy, everything else (every object included) is truthy. *)
Definition truthy (v : jsval) : bool :=
  match v with
  | JUndefined | JNull | JNaN => false
  | JBool b => b
  | JNum n => negb (n =? 0)%Z
  | JStr EmptyString => false
  | JStr (String _ _) => true
  | JObj _ | JArr _ | JBuiltin _ => true
  end.

(** [a || b] where [b] has no effect. *)
Definition js_or (a b : jsval) : jsval := if truthy a then a else b.

(** [v === s] for a string [s] and [v === b] for a boolean [b]: strict
    equality never converts, so only a string equals a string and only a
    boolean equals a boolean. *)
Definition strict_equals_string (v : jsval) (s : string) : bool :=
  match v with
  | JStr s' => String.eqb s' s
  | _ => false
  end.

Definition strict_equals_bool (v : jsval) (b : bool) : bool :=
  match v with
  | JBool b' => Bool.eqb b' b
  | _ => false
  end.

(** An own property of a value that is neither [undefined] nor [null];
    a missing one reads as [undefined].  The names read in this file are
    defined on no built-in prototype. *)
Definition own_member (v : jsval) (k : string) : jsval :=
  match v with
  | JObj props => default JUndefined (props !! k)
  | _ => JUndefined
  end.

(** [v.k]: a TypeError on [undefined] and [null]. *)
Definition get_member (v : jsval) (k : string) : completion jsval :=
  match v with
  | JUndefined | JNull =>
      Throw (TypeError ("Cannot read properties of undefined or null: " +:+ k))
  | _ => Return (own_member v k)
  end.

(** An object literal: the properties are defined in source order, a later
    definition of a key replacing an earlier one. *)
Definition object_literal (entries : list (string * jsval)) : gmap string jsval :=
  foldl (fun m kv => <[kv.1 := kv.2]> m) ∅ entries.

(** ** Strings *)

Fixpoint string_drop (n : nat) (s : string) : string :=
  match n, s with
  | O, _ => s
  | S _, EmptyString => EmptyString
  | S n', String _ s' => string_drop n' s'
  end.

(** [s.replace(pattern, replacement)] for a string pattern: the first
    occurrence only.  (The replacement is taken literally; the one used
    below is empty.) *)
Fixpoint replace (s pattern replacement : string) {struct s} : string :=
  if String.prefix pattern s
  then replacement +:+ string_drop (String.length pattern) s
  else match s with
       | EmptyString => EmptyString
       | String c s' => String c (replace s' pattern replacement)
       end.

Definition ascii_toUpperCase (c : ascii) : ascii :=
  let n := nat_of_ascii c in
  if (97 <=? n)%nat && (n <=? 122)%nat then ascii_of_nat (n - 32) else c.

(** Upper-casing of the letters a to z, every other character kept: what
    [s.toUpperCase()] does to a string of ASCII characters. *)
Fixpoint toUpperCase_ascii (s : string) : string :=
  match s with
  | EmptyString => EmptyString
  | String c s' => String (ascii_toUpperCase c) (toUpperCase_ascii s')
  end.

(** A string of ASCII characters only. *)
Fixpoint ascii_only (s : string) : bool :=
  match s with
  | EmptyString => true
  | String c s' => (nat_of_ascii c <? 128)%nat && ascii_only s'
  end.

(** The integers that a number holds exactly and prints digit by digit. *)
Definition safe_integer (n : Z) : bool :=
  (- (2 ^ 53) <? n)%Z && (n <? 2 ^ 53)%Z.

(** Removing every space, against which [replace] is compared below. *)
Fixpoint remove_spaces (s : string) : string :=
  match s with
  | EmptyString => EmptyString
  | String c s' =>
      if Ascii.eqb c " " then remove_spaces s' else String c (remove_spaces s')
  end.

(** ** What the engine does *)

(** The two operations of the JavaScript engine that the utilities rely on
    and that are taken from the engine as they are.  [ToString] is the
    conversion of a value to a string, as a template literal and a
    computed member access apply it; it may throw, as it does on an object
    whose [toString] and [valueOf] cannot be called.  [toUpperCase] is
    [String.prototype.toUpperCase], which follows the Unicode case
    mappings.  What is assumed of them is what holds of every engine: a
    string converts to itself, a safe integer to its decimal digits, and
    on ASCII characters upper-casing changes the letters a to z alone.  A
    string stands for the bytes of its UTF-8 encoding, in which a space is
    the byte 32 wherever it occurs. *)
Class Engine : Type := {
  ToString : jsval -> completion string;
  toUpperCase : string -> string;
  ToString_string : forall s : string, ToString (JStr s) = Return s;
  ToString_safe_integer : forall n : Z,
    safe_integer n = true -> ToString (JNum n) = Return (pretty n);
  toUpperCase_ascii_only : forall s : string,
    ascii_only s = true -> toUpperCase s = toUpperCase_ascii s;
}.

(** ** Members inherited from [Object.prototype] *)

(** The names that every plain object inherits from [Object.prototype]. *)
Definition Object_prototype_names : list string :=
  ["constructor"; "__defineGetter__"; "__defineSetter__"; "hasOwnProperty";
   "__lookupGetter__"; "__lookupSetter__"; "isPrototypeOf";
   "propertyIsEnumerable"; "toString"; "valueOf"; "__proto__";
   "toLocaleString"].

(** What a plain object without an own property [k] answers for [k]: the
    member of [Object.prototype] of that name ([__proto__] being the
    prototype itself and [constructor] the function [Object]), and
    [undefined] for every other name. *)
Definition inherited_member (k : string) : jsval :=
  if bool_decide (k ∈ Object_prototype_names) then
    if String.eqb k "__proto__" then JBuiltin "Object.prototype"
    else if String.eqb k "constructor" then JBuiltin "Object"
    else JBuiltin k
  else JUndefined.

(** [object[ k ]] on a plain object, for a key computed at run time: the
    own property, and failing that the inherited member. *)
Definition computed_member (props : gmap string jsval) (k : string) : jsval :=
  match props !! k with
  | Some v => v
  | None => inherited_member k
  end.

(** ** What the module imports *)

(** [errorTypes] and [errorCodes] of [./constants]: string constants. *)
Record ErrorTypes : Type := {
  INVALID_EMAIL : string;
  INVALID_REQUEST : string;
  API_CONNECTION : string;
  API_ERROR : string;
  AUTHENTICATION_ERROR : string;
  RATE_LIMIT_ERROR : string;
  CARD_ERROR : string;
  VALIDATION_ERROR : string;
}.

Record ErrorCodes : Type := {
  INVALID_NUMBER : string;
  INVALID_EXPIRY_MONTH : string;
  INVALID_EXPIRY_YEAR : string;
  INVALID_CVC : string;
  INCORRECT_NUMBER : string;
  INCOMPLETE_NUMBER : string;
  INCOMPLETE_CVC : string;
  INCOMPLETE_EXPIRY : string;
  EXPIRED_CARD : string;
  INCORRECT_CVC : string;
  INCORRECT_ZIP : string;
  INVALID_EXPIRY_YEAR_PAST : string;
  CARD_DECLINED : string;
  MISSING : string;
  PROCESSING_ERROR : string;
}.

(** The platform around the module: [getSetting] of
    [@woocommerce/settings], [__] of [@wordpress/i18n], the constants and
    the global [wc_stripe_payment_request_params]. *)
Class Imports : Type := {
  getSetting : string -> jsval -> jsval;
  __ : string -> string -> string;
  errorTypes : ErrorTypes;
  errorCodes : ErrorCodes;
  wc_stripe_payment_request_params : jsval;
}.

(** The vendor's payment-request handle, which this layer consumes and
    does not implement.  [configuration] is the options object behind the
    handle, [update] changes it and [canMakePayment] is the probe's
    promise.  The vendor's contract for [update] is that of a partial
    update: a field that the argument does not carry stays as it was. *)
Class PaymentRequestHandle (H : Type) : Type := {
  configuration : H -> jsval;
  update : H -> jsval -> H;
  canMakePayment : H -> promise jsval;
  update_partial : forall (h : H) (details : gmap string jsval) (k : string),
    details !! k = None ->
    own_member (configuration (update h (JObj details))) k =
    own_member (configuration h) k;
}.

(** Modelled from the spec: [normalizeLineItems] of [./normalize], which is
    not among the sources.  Each line item becomes one payment item with
    the item's label and, as amount, the item's value; one for one, in
    order, nothing filtered and nothing merged.  Reading a member of an
    item and mapping over a non-array fail as the engine does. *)
Definition normalizeLineItem (displayItem : jsval) : completion jsval :=
  label ← get_member displayItem "label";
  amount ← get_member displayItem "value";
  mret (JObj (object_literal [("label", label); ("amount", amount)])).

Fixpoint mapM_completion {A B : Type} (f : A -> completion B) (l : list A)
  : completion (list B) :=
  match l with
  | [] => Return []
  | x :: l' => y ← f x; ys ← mapM_completion f l'; mret (y :: ys)
  end.

Definition normalizeLineItems (displayItems : jsval) : completion jsval :=
  match displayItems with
  | JArr items => JArr <$> mapM_completion normalizeLineItem items
  | _ => Throw (TypeError "displayItems.map is not a function")
  end.

Definition text_domain : string := "woocommerce-gateway-stripe".

(** ** The functions of [utils.js] *)

Section Utils.
Context {imports : Imports} {engine : Engine}.

(** Stripe data comes from the server, passed on a global object. *)
Definition getStripeServerData : completion jsval :=
  let stripeServerData := getSetting "stripe_data" JNull in
  if negb (truthy stripeServerData)
  then Throw (Error "Stripe initialization data is not available")
  else Return stripeServerData.

(** The public api key for the stripe payment method. *)
Definition getApiKey : completion jsval :=
  stripeServerData ← getStripeServerData;
  apiKey ← get_member stripeServerData "publicKey";
  if negb (truthy apiKey)
  then Throw (Error "There is no api key available for stripe. Make sure it is available on the wc.stripe_data.stripe.key property.")
  else Return apiKey.

(** The total PaymentItem object used for the stripe PaymentRequest. *)
Definition getTotalPaymentItem (total : jsval) : completion jsval :=
  stripeServerData ← getStripeServerData;
  stripeTotalLabel ← get_member stripeServerData "stripeTotalLabel";
  amount ← get_member total "value";
  mret (JObj (object_literal
    [("label", js_or stripeTotalLabel (JStr (__ "Total" text_domain)));
     ("amount", amount)])).

(** The [options] object that [getPaymentRequest] hands to the vendor. *)
Definition getPaymentRequest_options
    (total currencyCode countryCode shippingRequired cartTotalItems : jsval)
  : completion jsval :=
  totalItem ← getTotalPaymentItem total;
  displayItems ← normalizeLineItems cartTotalItems;
  mret (JObj (object_literal
    [("total", totalItem);
     ("currency", currencyCode);
     ("country", js_or countryCode (JStr "US"));
     ("requestPayerName", JBool true);
     ("requestPayerEmail", JBool true);
     ("requestPayerPhone", JBool true);
     ("requestShipping", shippingRequired);
     ("displayItems", displayItems)])).

(** A stripe payment request object; [stripe] is the vendor's
    [stripe.paymentRequest]. *)
Definition getPaymentRequest {H : Type} (stripe : jsval -> completion H)
    (total currencyCode countryCode shippingRequired cartTotalItems : jsval)
  : completion H :=
  options ← getPaymentRequest_options total currencyCode countryCode
              shippingRequired cartTotalItems;
  stripe options.

(** The [options] object of [createPaymentRequestUsingCart], Puerto Rico
    mapped to the United States. *)
Definition createPaymentRequestUsingCart_options (cart : jsval)
  : completion jsval :=
  order_data ← get_member cart "order_data";
  total ← get_member order_data "total";
  currency ← get_member order_data "currency";
  country ← get_member order_data "country_code";
  checkout ← get_member wc_stripe_payment_request_params "checkout";
  needs_payer_phone ← get_member checkout "needs_payer_phone";
  shipping_required ← get_member cart "shipping_required";
  displayItems ← get_member order_data "displayItems";
  let country' :=
    if strict_equals_string country "PR" then JStr "US" else country in
  mret (JObj (object_literal
    [("total", total);
     ("currency", currency);
     ("country", country');
     ("requestPayerName", JBool true);
     ("requestPayerEmail", JBool true);
     ("requestPayerPhone", needs_payer_phone);
     ("requestShipping", JBool (truthy shipping_required));
     ("displayItems", displayItems)])).

Definition createPaymentRequestUsingCart {H : Type}
    (stripe : jsval -> completion H) (cart : jsval) : completion H :=
  options ← createPaymentRequestUsingCart_options cart;
  stripe options.

(** The object that [updatePaymentRequest] passes to
    [paymentRequest.update]. *)
Definition updatePaymentRequest_details (total currencyCode cartTotalItems : jsval)
  : completion jsval :=
  totalItem ← getTotalPaymentItem total;
  displayItems ← normalizeLineItems cartTotalItems;
  mret (JObj (object_literal
    [("total", totalItem);
     ("currency", currencyCode);
     ("displayItems", displayItems)])).

(** Updating the Stripe PaymentRequest object: the handle afterwards, and
    whether the call returned.  When building the argument throws, the
    handle's [update] is never reached. *)
Definition updatePaymentRequest {H : Type} {handle : PaymentRequestHandle H}
    (paymentRequest : H) (total currencyCode cartTotalItems : jsval)
  : H * completion jsval :=
  match updatePaymentRequest_details total currencyCode cartTotalItems with
  | Return details => (update paymentRequest details, Return JUndefined)
  | Throw e => (paymentRequest, Throw e)
  end.

Definition updatePaymentRequestWithCart_details (cart : jsval)
  : completion jsval :=
  order_data ← get_member cart "order_data";
  total ← get_member order_data "total";
  currency ← get_member order_data "currency";
  displayItems ← get_member order_data "displayItems";
  mret (JObj (object_literal
    [("total", total);
     ("currency", currency);
     ("displayItems", displayItems)])).

Definition updatePaymentRequestWithCart {H : Type} {handle : PaymentRequestHandle H}
    (paymentRequest : H) (cart : jsval) : H * completion jsval :=
  match updatePaymentRequestWithCart_details cart with
  | Return details => (update paymentRequest details, Return JUndefined)
  | Throw e => (paymentRequest, Throw e)
  end.

(** The callback of [canDoPaymentRequest]: what it passes to [resolve]. *)
Definition canDoPaymentRequest_resolved (result : jsval) : completion jsval :=
  if truthy result then
    applePay ← get_member result "applePay";
    let paymentRequestType :=
      if truthy applePay then "apple_pay" else "payment_request_api" in
    mret (JObj (object_literal
      [("canPay", JBool true); ("requestType", JStr paymentRequestType)]))
  else
    mret (JObj (object_literal [("canPay", JBool false)])).

(** Whether the current session can do a payment request.  The promise is
    resolved from inside the [then] callback only: while the probe is
    pending, or once it is rejected, nothing resolves it. *)
Definition canDoPaymentRequest {H : Type} {handle : PaymentRequestHandle H}
    (paymentRequest : H) : promise jsval :=
  match canMakePayment paymentRequest with
  | Fulfilled result =>
      match canDoPaymentRequest_resolved result with
      | Return outcome => Fulfilled outcome
      | Throw _ => Pending
      end
  | Pending | Rejected _ => Pending
  end.

(** [[ ... ].includes( type )] over the five string constants. *)
Definition isNonFriendlyError (type : jsval) : bool :=
  existsb (strict_equals_string type)
    [INVALID_REQUEST errorTypes;
     API_CONNECTION errorTypes;
     API_ERROR errorTypes;
     AUTHENTICATION_ERROR errorTypes;
     RATE_LIMIT_ERROR errorTypes].

(** The entries of the table of [getErrorMessageForCode], in source
    order. *)
Definition messages_entries : list (string * jsval) :=
    [(INVALID_NUMBER errorCodes,
      JStr (__ "The card number is not a valid credit card number." text_domain));
     (INVALID_EXPIRY_MONTH errorCodes,
      JStr (__ "The card expiration month is invalid." text_domain));
     (INVALID_EXPIRY_YEAR errorCodes,
      JStr (__ "The card expiration year is invalid." text_domain));
     (INVALID_CVC errorCodes,
      JStr (__ "The card security code is invalid." text_domain));
     (INCORRECT_NUMBER errorCodes,
      JStr (__ "The card number is incorrect." text_domain));
     (INCOMPLETE_NUMBER errorCodes,
      JStr (__ "The card number is incomplete." text_domain));
     (INCOMPLETE_CVC errorCodes,
      JStr (__ "The card security code is incomplete." text_domain));
     (INCOMPLETE_EXPIRY errorCodes,
      JStr (__ "The card expiration date is incomplete." text_domain));
     (EXPIRED_CARD errorCodes,
      JStr (__ "The card has expired." text_domain));
     (INCORRECT_CVC errorCodes,
      JStr (__ "The card security code is incorrect." text_domain));
     (INCORRECT_ZIP errorCodes,
      JStr (__ "The card zip code failed validation." text_domain));
     (INVALID_EXPIRY_YEAR_PAST errorCodes,
      JStr (__ "The card expiration year is in the past" text_domain));
     (CARD_DECLINED errorCodes,
      JStr (__ "The card was declined." text_domain));
     (MISSING errorCodes,
      JStr (__ "There is no card on a customer that is being charged." text_domain));
     (PROCESSING_ERROR errorCodes,
      JStr (__ "An error occurred while processing the card." text_domain))].

Definition messages : gmap string jsval := object_literal messages_entries.

(** [messages[ code ] || null]: the code is converted to a property key
    and looked up in the table, which is a plain object. *)
Definition getErrorMessageForCode (code : jsval) : completion jsval :=
  key ← ToString code;
  mret (js_or (computed_member messages key) JNull).

Definition invalid_email_message : string :=
  __ "Invalid email address, please correct and try again." text_domain.

Definition generic_message : string :=
  __ "Unable to process this payment, please try again or use alternative method." text_domain.

(** The [switch ( type )]: each [case] label is compared with [type] by
    strict equality, in order; the second label is the boolean that
    [isNonFriendlyError( type )] returns.  A missing [code] defaults to the
    empty string. *)
Definition getErrorMessageForTypeAndCode (type code : jsval)
  : completion jsval :=
  let code := match code with JUndefined => JStr "" | _ => code end in
  if strict_equals_string type (INVALID_EMAIL errorTypes) then
    Return (JStr invalid_email_message)
  else if strict_equals_bool type (isNonFriendlyError type) then
    Return (JStr generic_message)
  else if strict_equals_string type (CARD_ERROR errorTypes) then
    getErrorMessageForCode code
  else if strict_equals_string type (VALIDATION_ERROR errorTypes) then
    Return (JStr "")
  else Return JNull.

(** [pluckAddress]: the four fields needed to fetch shipping rates. *)
Definition pluckAddress (address : jsval) : completion jsval :=
  country ← get_member address "country";
  state ← get_member address "state";
  city ← get_member address "city";
  postcode ← get_member address "postcode";
  match postcode with
  | JStr s =>
      mret (JObj (object_literal
        [("country", country);
         ("state", state);
         ("city", city);
         ("postcode", JStr (toUpperCase (replace s " " "")))]))
  | JUndefined | JNull =>
      Throw (TypeError "Cannot read properties of undefined or null: replace")
  | _ => Throw (TypeError "postcode.replace is not a function")
  end.

End Utils.

(** ** A concrete platform and a reference handle *)

(** Modelled from the spec: the constants of [./constants], which is not
    among the sources, under the names the spec gives the error types and
    the card codes.  The theorems below hold for every choice of constants;
    this one serves the worked examples. *)
Definition sample_errorTypes : ErrorTypes := {|
  INVALID_EMAIL := "invalid_email";
  INVALID_REQUEST := "invalid_request";
  API_CONNECTION := "api_connection";
  API_ERROR := "api_error";
  AUTHENTICATION_ERROR := "authentication_error";
  RATE_LIMIT_ERROR := "rate_limit_error";
  CARD_ERROR := "card_error";
  VALIDATION_ERROR := "validation_error";
|}.

Definition sample_errorCodes : ErrorCodes := {|
  INVALID_NUMBER := "invalid_number";
  INVALID_EXPIRY_MONTH := "invalid_expiry_month";
  INVALID_EXPIRY_YEAR := "invalid_expiry_year";
  INVALID_CVC := "invalid_cvc";
  INCORRECT_NUMBER := "incorrect_number";
  INCOMPLETE_NUMBER := "incomplete_number";
  INCOMPLETE_CVC := "incomplete_cvc";
  INCOMPLETE_EXPIRY := "incomplete_expiry";
  EXPIRED_CARD := "expired_card";
  INCORRECT_CVC := "incorrect_cvc";
  INCORRECT_ZIP := "incorrect_zip";
  INVALID_EXPIRY_YEAR_PAST := "invalid_expiry_year_past";
  CARD_DECLINED := "card_declined";
  MISSING := "missing";
  PROCESSING_ERROR := "processing_error";
|}.

(** The engine of the worked examples, one that meets what [Engine] asks.
    It converts the values that the examples use as every engine does:
    strings, the other primitives with the safe integers, and the plain
    objects and arrays of these; a plain object with an own [toString]
    holds no function in the examples and cannot be converted.  Outside
    these (a number beyond the safe integers, a built-in object) engines
    differ from it or from one another, and no statement below rests on
    what it answers there.  Strings in the examples are ASCII. *)
Fixpoint reference_ToString (v : jsval) : completion string :=
  match v with
  | JUndefined => Return "undefined"
  | JNull => Return "null"
  | JBool true => Return "true"
  | JBool false => Return "false"
  | JNum n => Return (pretty n)
  | JNaN => Return "NaN"
  | JStr s => Return s
  | JObj props =>
      match props !! "toString" with
      | None => Return "[object Object]"
      | Some _ => Throw (TypeError "Cannot convert object to primitive value")
      end
  | JArr l =>
      let elem x :=
        match x with
        | JUndefined | JNull => Return ""
        | _ => reference_ToString x
        end in
      (fix join (l : list jsval) : completion string :=
         match l with
         | [] => Return ""
         | [x] => elem x
         | x :: l' =>
             match elem x, join l' with
             | Return a, Return b => Return (a +:+ "," +:+ b)
             | Throw e, _ => Throw e
             | _, Throw e => Throw e
             end
         end) l
  | JBuiltin name =>
      if String.eqb name "Object.prototype" then Return "[object Object]"
      else Return ("function " +:+ name +:+ "() { [native code] }")
  end.

Program Definition reference_engine : Engine := {|
  ToString := reference_ToString;
  toUpperCase := toUpperCase_ascii;
|}.
Solve All Obligations with done.

(** A settings blob with a key and no custom total label. *)
Definition sample_stripe_data : jsval :=
  JObj (object_literal [("publicKey", JStr "pk_test_123")]).

(** A shop whose server data is present, with untranslated messages. *)
Definition sample_imports : Imports := {|
  getSetting name fallback :=
    if String.eqb name "stripe_data" then sample_stripe_data else fallback;
  __ text domain := text;
  errorTypes := sample_errorTypes;
  errorCodes := sample_errorCodes;
  wc_stripe_payment_request_params :=
    JObj (object_literal
      [("checkout", JObj (object_literal [("needs_payer_phone", JBool false)]))]);
|}.

(** A shop whose server data was never registered. *)
Definition bare_imports : Imports := {|
  getSetting name fallback := fallback;
  __ text domain := text;
  errorTypes := sample_errorTypes;
  errorCodes := sample_errorCodes;
  wc_stripe_payment_request_params := JUndefined;
|}.

(** A reference implementation of the vendor's handle, for the worked
    examples.  Behind the handle sit the options it was created with and
    the outcome of the probe; [update] overwrites the fields it is given
    and keeps the others. *)
Record reference_handle : Type := {
  handle_options : jsval;
  handle_probe : promise jsval;
}.

Definition reference_update (h : reference_handle) (details : jsval)
  : reference_handle :=
  match details, handle_options h with
  | JObj d, JObj o =>
      {| handle_options := JObj (d ∪ o); handle_probe := handle_probe h |}
  | _, _ => h
  end.

#[global] Program Instance reference_handle_ops
  : PaymentRequestHandle reference_handle := {|
  configuration := handle_options;
  update := reference_update;
  canMakePayment := handle_probe;
|}.
Next Obligation.
  intros h details k Hk. unfold reference_update.
  destruct (handle_options h) eqn:Ho; simpl; rewrite ?Ho; try reflexivity.
  by rewrite lookup_union_r.
Qed.

(** [stripe.paymentRequest] of the reference vendor; the probe of the new
    handle has not answered yet. *)
Definition reference_stripe (options : jsval) : completion reference_handle :=
  Return {| handle_options := options; handle_probe := Pending |}.

(** The cart of the end-to-end example: a total of 1000 and one shipping
    line of 500. *)
Definition sample_total : jsval :=
  JObj (object_literal [("label", JStr "Total"); ("value", JNum 1000)]).

Definition sample_items : list jsval :=
  [JObj (object_literal [("label", JStr "Shipping"); ("value", JNum 500)])].

Definition sample_cart : jsval :=
  JObj (object_literal
    [("shipping_required", JBool true);
     ("order_data", JObj (object_literal
        [("total", JObj (object_literal
            [("label", JStr "Total"); ("amount", JNum 1000)]));
         ("currency", JStr "usd");
         ("country_code", JStr "PR");
         ("displayItems", JArr [])]))]).

(** The address of the postcode example. *)
Definition sample_address : jsval :=
  JObj (object_literal
    [("country", JStr "GB");
     ("state", JStr "");
     ("city", JStr "London");
     ("postcode", JStr " sw1a 1aa ");
     ("first_name", JStr "Ada")]).

(** The five fields that an update must leave alone. *)
Definition immutable_fields : list string :=
  ["country"; "requestPayerName"; "requestPayerEmail"; "requestPayerPhone";
   "requestShipping"].

Fixpoint count_spaces (s : string) : nat :=
  match s with
  | EmptyString => 0
  | String c s' => (if Ascii.eqb c " " then 1 else 0) + count_spaces s'
  end.

(** ** The express payment component *)

(** [undefined] and [null], the two values without members. *)
Definition nullish (v : jsval) : bool :=
  match v with
  | JUndefined | JNull => true
  | _ => false
  end.

(** A default of a destructuring pattern: it replaces [undefined] only. *)
Definition default_undefined (v d : jsval) : jsval :=
  match v with
  | JUndefined => d
  | _ => v
  end.

(** What [PaymentRequestExpressComponent] can return, each element with
    the handle it was given: the custom and the Google Pay button show the
    handle's sheet on a click, the vendor's button element receives it with
    its style. *)
Inductive element (H : Type) : Type :=
| CustomButton (paymentRequest : H)
| GooglePayButton (paymentRequest : H)
| PaymentRequestButtonElement (style : jsval) (paymentRequest : H).
Arguments CustomButton {H} paymentRequest.
Arguments GooglePayButton {H} paymentRequest.
Arguments PaymentRequestButtonElement {H} style paymentRequest.

Section Component.
Context {imports : Imports} {engine : Engine}.

(** The [paymentRequestButtonStyle] object for a given button type;
    [height] is the text that the template literal made of the height. *)
Definition paymentRequestButtonStyle (type theme : jsval) (height : string)
  : jsval :=
  JObj (object_literal
    [("paymentRequestButton", JObj (object_literal
        [("type", type);
         ("theme", theme);
         ("height", JStr (height +:+ "px"))]))]).

(** The return value of [PaymentRequestExpressComponent], [None] being
    [null].  [paymentRequest] is what the [usePaymentRequest] hook hands
    back ([null] until the handle is ready) and [shouldUseGooglePayBrand]
    the answer of the helper of that name.  The props are the ones the
    platform passes ([shippingData] is an object); the hooks of [./hooks]
    register handlers and take no part in what is returned.  The style,
    and with it the template literal of the height, is built before the
    payment request is looked at. *)
Definition PaymentRequestExpressComponent {H : Type}
    (shouldUseGooglePayBrand : bool) (paymentRequest : option H)
  : completion (option (element H)) :=
  stripeServerData ← getStripeServerData;
  button ← get_member stripeServerData "button";
  if nullish button then
    Throw (TypeError "Cannot destructure the button of the server data")
  else
    let type := default_undefined (own_member button "type") (JStr "default") in
    let theme := default_undefined (own_member button "theme") (JStr "dark") in
    let height := default_undefined (own_member button "height") (JStr "48") in
    height ← ToString height;
    let isBranded := own_member button "is_branded" in
    let brandedType := own_member button "branded_type" in
    let isCustom := own_member button "is_custom" in
    match paymentRequest with
    | None => mret None
    | Some handle =>
        if truthy isCustom then mret (Some (CustomButton handle))
        else if truthy isBranded && shouldUseGooglePayBrand then
          mret (Some (GooglePayButton handle))
        else
          let type' :=
            if truthy isBranded then
              if strict_equals_string brandedType "long"
              then JStr "buy" else JStr "default"
            else type in
          mret (Some (PaymentRequestButtonElement
                        (paymentRequestButtonStyle type' theme height) handle))
    end.

End Component.

(** Server data with a button section. *)
Definition button_imports (button : jsval) : Imports := {|
  getSetting name fallback :=
    if String.eqb name "stripe_data"
    then JObj (object_literal [("publicKey", JStr "pk_test_123"); ("button", button)])
    else fallback;
  __ text domain := text;
  errorTypes := sample_errorTypes;
  errorCodes := sample_errorCodes;
  wc_stripe_payment_request_params := JUndefined;
|}.

Fixpoint has_lowercase (s : string) : bool :=
  match s with
  | EmptyString => false
  | String c s' =>
      let n := nat_of_ascii c in
      ((97 <=? n)%nat && (n <=? 122)%nat) || has_lowercase s'
  end.

(** ** Basic facts about completions, members and strings *)

Lemma bind_Return {A B : Type} (m : completion A) (f : A -> completion B) (b : B) :
  m ≫= f = Return b -> exists a, m = Return a /\ f a = Return b.
Proof. destruct m as [a|e]; simpl; [eauto | discriminate]. Qed.

Lemma fmap_Return {A B : Type} (m : completion A) (f : A -> B) (b : B) :
  f <$> m = Return b -> exists a, m = Return a /\ f a = b.
Proof. destruct m as [a|e]; simpl; [intros [= <-]; eauto | discriminate]. Qed.

(** Peels the binds off a hypothesis [... = Return _], naming nothing. *)
Ltac invert_return H :=
  repeat match type of H with
  | (_ ≫= _) = Return _ =>
      let a := fresh "v" in
      let Ha := fresh "Hv" in
      apply bind_Return in H; destruct H as (a & Ha & H)
  | mret _ = Return _ => injection H as H
  | Return _ = Return _ => injection H as H
  end.

Lemma get_member_Return (v : jsval) (k : string) (x : jsval) :
  get_member v k = Return x -> x = own_member v k.
Proof. destruct v; simpl; congruence. Qed.

Lemma get_member_truthy (v : jsval) (k : string) :
  truthy v = true -> get_member v k = Return (own_member v k).
Proof. destruct v; simpl; congruence. Qed.

Lemma get_member_object (props : gmap string jsval) (k : string) :
  get_member (JObj props) k = Return (default JUndefined (props !! k)).
Proof. reflexivity. Qed.

Lemma strict_equals_string_true (v : jsval) (s : string) :
  strict_equals_string v s = true <-> v = JStr s.
Proof.
  destruct v; simpl; try (split; [discriminate | congruence]).
  rewrite String.eqb_eq. split; congruence.
Qed.

Lemma strict_equals_string_ne (s t : string) :
  s <> t -> strict_equals_string (JStr s) t = false.
Proof. intros Hne. simpl. by apply String.eqb_neq. Qed.

(** No string is strictly equal to a boolean. *)
Lemma strict_equals_bool_string (s : string) (b : bool) :
  strict_equals_bool (JStr s) b = false.
Proof. reflexivity. Qed.

Lemma js_or_truthy (a b : jsval) : truthy a = true -> js_or a b = a.
Proof. unfold js_or. by intros ->. Qed.

Lemma js_or_falsy (a b : jsval) : truthy a = false -> js_or a b = b.
Proof. unfold js_or. by intros ->. Qed.

Lemma mapM_completion_length {A B : Type} (f : A -> completion B)
    (l : list A) (out : list B) :
  mapM_completion f l = Return out -> length out = length l.
Proof.
  revert out. induction l as [|x l IH]; simpl; intros out Hrun.
  - by injection Hrun as <-.
  - invert_return Hrun. subst out. simpl. f_equal. by apply IH.
Qed.

Lemma mapM_completion_lookup {A B : Type} (f : A -> completion B)
    (l : list A) (out : list B) (i : nat) (x : A) :
  mapM_completion f l = Return out -> l !! i = Some x ->
  exists y, out !! i = Some y /\ f x = Return y.
Proof.
  revert out i. induction l as [|x0 l IH]; simpl; intros out i Hrun Hi.
  - discriminate.
  - invert_return Hrun. subst out. destruct i as [|i]; simpl in *.
    + injection Hi as ->. eauto.
    + eauto.
Qed.

(** Items that are neither [undefined] nor [null] all map. *)
Lemma mapM_completion_total {A B : Type} (f : A -> completion B) (l : list A) :
  Forall (fun x => throws (f x) = false) l ->
  throws (mapM_completion f l) = false.
Proof.
  induction 1 as [|x l Hx _ IH]; simpl; [done|].
  destruct (f x); [|discriminate]. simpl.
  destruct (mapM_completion f l); [done | discriminate].
Qed.

(** ** Reading the configuration *)

Section Configuration.
Context {imports : Imports}.

Lemma getStripeServerData_eq :
  getStripeServerData =
    if truthy (getSetting "stripe_data" JNull)
    then Return (getSetting "stripe_data" JNull)
    else Throw (Error "Stripe initialization data is not available").
Proof. unfold getStripeServerData. simpl. by destruct (truthy _). Qed.

Lemma getStripeServerData_Return (blob : jsval) :
  getStripeServerData = Return blob ->
  blob = getSetting "stripe_data" JNull /\ truthy blob = true.
Proof.
  rewrite getStripeServerData_eq. simpl.
  destruct (truthy (getSetting "stripe_data" JNull)) eqn:Ht; [|discriminate].
  intros [= <-]. done.
Qed.

(** C7: [getStripeServerData] throws exactly when the settings blob is
    falsy, and [getApiKey] throws exactly when the blob is falsy or its
    [publicKey] is falsy; otherwise each returns the very value it read,
    with no default put in its place. *)
Theorem configuration_absent_iff_throws :
  let blob := getSetting "stripe_data" JNull in
  let key := own_member blob "publicKey" in
  ((exists e, getStripeServerData = Throw e) <-> truthy blob = false)
  /\ (truthy blob = true -> getStripeServerData = Return blob)
  /\ ((exists e, getApiKey = Throw e) <->
        truthy blob = false \/ truthy key = false)
  /\ (truthy blob = true -> truthy key = true -> getApiKey = Return key).
Proof.
  intros blob key. unfold getApiKey. rewrite getStripeServerData_eq.
  fold blob. subst key.
  destruct (truthy blob) eqn:Hblob.
  - change (Return blob ≫= ?f) with (f blob). cbv beta.
    rewrite (get_member_truthy _ _ Hblob).
    change (Return ?a ≫= ?f) with (f a). cbv beta.
    destruct (truthy (own_member blob "publicKey")) eqn:Hkey; simpl;
      repeat split; try done; try (intros [e He]; discriminate);
      try (intros [?|?]; discriminate); intros _; eauto.
  - simpl. repeat split; try done; intros _; eauto.
Qed.

End Configuration.

(** ** The request builder *)

Section Builder.
Context {imports : Imports}.

Lemma getTotalPaymentItem_Return (total item : jsval) :
  getTotalPaymentItem total = Return item ->
  exists label,
    item = JObj (object_literal
             [("label", label); ("amount", own_member total "value")]).
Proof.
  unfold getTotalPaymentItem. intros Hrun. invert_return Hrun.
  apply get_member_Return in Hv1. subst. eauto.
Qed.

(** What the builder returns, when it returns. *)
Lemma getPaymentRequest_options_Return
    (total currencyCode countryCode shippingRequired cartTotalItems options : jsval) :
  getPaymentRequest_options total currencyCode countryCode shippingRequired
    cartTotalItems = Return options ->
  exists totalItem displayItems,
    getTotalPaymentItem total = Return totalItem
    /\ normalizeLineItems cartTotalItems = Return displayItems
    /\ options = JObj (object_literal
         [("total", totalItem);
          ("currency", currencyCode);
          ("country", js_or countryCode (JStr "US"));
          ("requestPayerName", JBool true);
          ("requestPayerEmail", JBool true);
          ("requestPayerPhone", JBool true);
          ("requestShipping", shippingRequired);
          ("displayItems", displayItems)]).
Proof.
  unfold getPaymentRequest_options. intros Hrun. invert_return Hrun.
  subst. eauto.
Qed.

(** The builder returns as soon as the settings blob is there, the total
    is an object and the items are an array of objects. *)
Lemma getPaymentRequest_options_total
    (total currencyCode countryCode shippingRequired : jsval) (items : list jsval) :
  truthy (getSetting "stripe_data" JNull) = true ->
  (exists t, total = JObj t) ->
  Forall (fun item => exists p, item = JObj p) items ->
  throws (getPaymentRequest_options total currencyCode countryCode
            shippingRequired (JArr items)) = false.
Proof.
  intros Hblob [t ->] Hitems.
  unfold getPaymentRequest_options, getTotalPaymentItem.
  rewrite getStripeServerData_eq, Hblob.
  change (Return ?a ≫= ?f) with (f a). cbv beta.
  rewrite (get_member_truthy _ _ Hblob).
  change (Return ?a ≫= ?f) with (f a). cbv beta.
  rewrite get_member_object.
  change (Return ?a ≫= ?f) with (f a). cbv beta.
  change (mret ?a ≫= ?f) with (f a). cbv beta.
  unfold normalizeLineItems.
  assert (Hmap : throws (mapM_completion normalizeLineItem items) = false).
  { apply mapM_completion_total. eapply Forall_impl; [exact Hitems|].
    intros item [p ->]. reflexivity. }
  destruct (mapM_completion normalizeLineItem items); [reflexivity | discriminate].
Qed.

(** The country of the built options, for every country code: the code
    itself when it is truthy, "US" otherwise. *)
Lemma getPaymentRequest_options_country
    (total currencyCode countryCode shippingRequired cartTotalItems options : jsval) :
  getPaymentRequest_options total currencyCode countryCode shippingRequired
    cartTotalItems = Return options ->
  own_member options "country" = js_or countryCode (JStr "US").
Proof.
  intros Hrun. apply getPaymentRequest_options_Return in Hrun.
  destruct Hrun as (totalItem & displayItems & _ & _ & ->). reflexivity.
Qed.

Lemma getPaymentRequest_country_default
    (total currencyCode countryCode shippingRequired cartTotalItems options : jsval) :
  truthy countryCode = false ->
  getPaymentRequest_options total currencyCode countryCode shippingRequired
    cartTotalItems = Return options ->
  own_member options "country" = JStr "US".
Proof.
  intros Hfalsy Hrun.
  rewrite (getPaymentRequest_options_country _ _ _ _ _ _ Hrun).
  by apply js_or_falsy.
Qed.

Lemma getPaymentRequest_country_passed
    (total currencyCode countryCode shippingRequired cartTotalItems options : jsval) :
  truthy countryCode = true ->
  getPaymentRequest_options total currencyCode countryCode shippingRequired
    cartTotalItems = Return options ->
  own_member options "country" = countryCode.
Proof.
  intros Htruthy Hrun.
  rewrite (getPaymentRequest_options_country _ _ _ _ _ _ Hrun).
  by apply js_or_truthy.
Qed.

(** C1: with the country code "PR" the builder hands "PR" to the vendor;
    only [createPaymentRequestUsingCart] maps it to "US". *)
Theorem getPaymentRequest_keeps_PR
    (total currencyCode shippingRequired cartTotalItems options : jsval) :
  getPaymentRequest_options total currencyCode (JStr "PR") shippingRequired
    cartTotalItems = Return options ->
  own_member options "country" = JStr "PR"
  /\ own_member options "country" <> JStr "US".
Proof.
  intros Hrun.
  rewrite (getPaymentRequest_country_passed _ _ (JStr "PR") _ _ _ eq_refl Hrun).
  split; [reflexivity | discriminate].
Qed.

(** The sibling builder does the mapping that the comment in it asks for. *)
Lemma createPaymentRequestUsingCart_maps_PR (cart order_data options : jsval) :
  get_member cart "order_data" = Return order_data ->
  own_member order_data "country_code" = JStr "PR" ->
  createPaymentRequestUsingCart_options cart = Return options ->
  own_member options "country" = JStr "US".
Proof.
  intros Hod Hcc Hrun. unfold createPaymentRequestUsingCart_options in Hrun.
  rewrite Hod in Hrun. change (Return ?a ≫= ?f) with (f a) in Hrun.
  cbv beta in Hrun. invert_return Hrun.
  apply get_member_Return in Hv1. rewrite Hcc in Hv1. subst. reflexivity.
Qed.

(** C10: whatever the caller passes, the built options ask for the payer's
    name, email and phone. *)
Theorem getPaymentRequest_requests_payer_info
    (total currencyCode countryCode shippingRequired cartTotalItems options : jsval) :
  getPaymentRequest_options total currencyCode countryCode shippingRequired
    cartTotalItems = Return options ->
  own_member options "requestPayerName" = JBool true
  /\ own_member options "requestPayerEmail" = JBool true
  /\ own_member options "requestPayerPhone" = JBool true.
Proof.
  intros Hrun. apply getPaymentRequest_options_Return in Hrun.
  destruct Hrun as (totalItem & displayItems & _ & _ & ->).
  repeat split; reflexivity.
Qed.

(** The options reach the vendor untouched. *)
Lemma getPaymentRequest_passes_options {H : Type}
    (stripe : jsval -> completion H)
    (total currencyCode countryCode shippingRequired cartTotalItems : jsval)
    (h : H) :
  getPaymentRequest stripe total currencyCode countryCode shippingRequired
    cartTotalItems = Return h ->
  exists options,
    getPaymentRequest_options total currencyCode countryCode shippingRequired
      cartTotalItems = Return options
    /\ stripe options = Return h.
Proof. unfold getPaymentRequest. intros Hrun. invert_return Hrun. eauto. Qed.

Lemma normalizeLineItem_Return (item out : jsval) :
  normalizeLineItem item = Return out ->
  out = JObj (object_literal
          [("label", own_member item "label");
           ("amount", own_member item "value")]).
Proof.
  unfold normalizeLineItem. intros Hrun. invert_return Hrun.
  apply get_member_Return in Hv, Hv0. by subst.
Qed.

(** C8: the display items of the built options are as many as the cart's
    line items and in the same order, the amount of each being the value of
    the line item at the same position (and its label the item's label);
    nothing is dropped and nothing merged. *)
Theorem getPaymentRequest_displayItems
    (total currencyCode countryCode shippingRequired options : jsval)
    (items : list jsval) :
  getPaymentRequest_options total currencyCode countryCode shippingRequired
    (JArr items) = Return options ->
  exists displayItems,
    own_member options "displayItems" = JArr displayItems
    /\ length displayItems = length items
    /\ forall (i : nat) (item : jsval), items !! i = Some item ->
         exists displayItem,
           displayItems !! i = Some displayItem
           /\ own_member displayItem "amount" = own_member item "value"
           /\ own_member displayItem "label" = own_member item "label".
Proof.
  intros Hrun. apply getPaymentRequest_options_Return in Hrun.
  destruct Hrun as (totalItem & displayItems & _ & Hnorm & ->).
  unfold normalizeLineItems in Hnorm.
  apply fmap_Return in Hnorm. destruct Hnorm as (out & Hmap & <-).
  exists out. split; [reflexivity|]. split.
  - by eapply mapM_completion_length.
  - intros i item Hi.
    destruct (mapM_completion_lookup _ _ _ _ _ Hmap Hi) as (y & Hy & Hitem).
    apply normalizeLineItem_Return in Hitem. subst y.
    exists (JObj (object_literal
              [("label", own_member item "label");
               ("amount", own_member item "value")])).
    split; [exact Hy|]. split; reflexivity.
Qed.

End Builder.

(** ** The request updater *)

Section Handle.
Context {imports : Imports} {H : Type} {handle : PaymentRequestHandle H}.

Lemma immutable_fields_not_updated (k : string) (total currency displayItems : jsval) :
  k ∈ immutable_fields ->
  object_literal
    [("total", total); ("currency", currency); ("displayItems", displayItems)]
    !! k = None.
Proof.
  unfold immutable_fields. rewrite !elem_of_cons, elem_of_nil.
  intros [->|[->|[->|[->|[->|[]]]]]]; reflexivity.
Qed.

Lemma update_details_dom (total currency displayItems : jsval) :
  dom (object_literal
         [("total", total); ("currency", currency); ("displayItems", displayItems)])
  = ({["total"; "currency"; "displayItems"]} : gset string).
Proof.
  unfold object_literal. simpl.
  rewrite !dom_insert_L, dom_empty_L. set_solver.
Qed.

Lemma updatePaymentRequest_details_Return
    (total currencyCode cartTotalItems details : jsval) :
  updatePaymentRequest_details total currencyCode cartTotalItems = Return details ->
  exists totalItem displayItems,
    details = JObj (object_literal
      [("total", totalItem); ("currency", currencyCode);
       ("displayItems", displayItems)]).
Proof.
  unfold updatePaymentRequest_details. intros Hrun. invert_return Hrun.
  subst. eauto.
Qed.

Lemma updatePaymentRequestWithCart_details_Return (cart details : jsval) :
  updatePaymentRequestWithCart_details cart = Return details ->
  exists total currency displayItems,
    details = JObj (object_literal
      [("total", total); ("currency", currency);
       ("displayItems", displayItems)]).
Proof.
  unfold updatePaymentRequestWithCart_details. intros Hrun.
  invert_return Hrun. subst. eauto.
Qed.

(** When the argument of [updatePaymentRequest] can be built. *)
Lemma updatePaymentRequest_details_throws (total currencyCode cartTotalItems : jsval) :
  throws (updatePaymentRequest_details total currencyCode cartTotalItems)
  = negb (truthy (getSetting "stripe_data" JNull)) || nullish total
    || throws (normalizeLineItems cartTotalItems).
Proof.
  unfold updatePaymentRequest_details, getTotalPaymentItem.
  rewrite getStripeServerData_eq.
  destruct (truthy (getSetting "stripe_data" JNull)) eqn:Hblob; [|reflexivity].
  change (Return ?a ≫= ?f) with (f a). cbv beta.
  rewrite (get_member_truthy _ _ Hblob).
  change (Return ?a ≫= ?f) with (f a). cbv beta.
  destruct total; try reflexivity; simpl;
    by destruct (normalizeLineItems cartTotalItems).
Qed.

Lemma updatePaymentRequestWithCart_details_throws (cart : jsval) :
  throws (updatePaymentRequestWithCart_details cart)
  = nullish cart || nullish (own_member cart "order_data").
Proof.
  unfold updatePaymentRequestWithCart_details.
  destruct cart; try reflexivity; simpl;
    by destruct (default JUndefined _).
Qed.

(** C9: each updater (from the checkout's totals, and from a cart) calls
    the handle's [update] once, with an object that has the fields total,
    currency and displayItems and no other, and returns; it does so
    whenever that object can be built, and otherwise throws and leaves the
    handle alone.  In both cases the country and the four request flags of
    the handle's configuration are afterwards what they were before. *)
Theorem updatePaymentRequest_frame
    (paymentRequest : H) (total currencyCode cartTotalItems cart : jsval) :
  (forall details,
     updatePaymentRequest_details total currencyCode cartTotalItems
       = Return details ->
     updatePaymentRequest paymentRequest total currencyCode cartTotalItems
       = (update paymentRequest details, Return JUndefined)
     /\ exists d, details = JObj d
       /\ dom d = ({["total"; "currency"; "displayItems"]} : gset string))
  /\ (forall details,
     updatePaymentRequestWithCart_details cart = Return details ->
     updatePaymentRequestWithCart paymentRequest cart
       = (update paymentRequest details, Return JUndefined)
     /\ exists d, details = JObj d
       /\ dom d = ({["total"; "currency"; "displayItems"]} : gset string))
  /\ (throws (updatePaymentRequest_details total currencyCode cartTotalItems)
      = negb (truthy (getSetting "stripe_data" JNull)) || nullish total
        || throws (normalizeLineItems cartTotalItems))
  /\ (throws (updatePaymentRequestWithCart_details cart)
      = nullish cart || nullish (own_member cart "order_data"))
  /\ (forall e,
     updatePaymentRequest_details total currencyCode cartTotalItems = Throw e ->
     updatePaymentRequest paymentRequest total currencyCode cartTotalItems
       = (paymentRequest, Throw e))
  /\ (forall e,
     updatePaymentRequestWithCart_details cart = Throw e ->
     updatePaymentRequestWithCart paymentRequest cart
       = (paymentRequest, Throw e))
  /\ (forall k, k ∈ immutable_fields ->
     own_member (configuration
       (updatePaymentRequest paymentRequest total currencyCode cartTotalItems).1) k
     = own_member (configuration paymentRequest) k)
  /\ (forall k, k ∈ immutable_fields ->
     own_member (configuration
       (updatePaymentRequestWithCart paymentRequest cart).1) k
     = own_member (configuration paymentRequest) k).
Proof.
  split; [|split; [|split; [|split; [|split; [|split; [|split]]]]]].
  - intros details Hrun. unfold updatePaymentRequest. rewrite Hrun.
    split; [reflexivity|].
    apply updatePaymentRequest_details_Return in Hrun.
    destruct Hrun as (t & items & ->).
    eexists. split; [reflexivity | apply update_details_dom].
  - intros details Hrun. unfold updatePaymentRequestWithCart. rewrite Hrun.
    split; [reflexivity|].
    apply updatePaymentRequestWithCart_details_Return in Hrun.
    destruct Hrun as (t & c & items & ->).
    eexists. split; [reflexivity | apply update_details_dom].
  - apply updatePaymentRequest_details_throws.
  - apply updatePaymentRequestWithCart_details_throws.
  - intros e Hrun. unfold updatePaymentRequest. by rewrite Hrun.
  - intros e Hrun. unfold updatePaymentRequestWithCart. by rewrite Hrun.
  - intros k Hk. unfold updatePaymentRequest.
    destruct (updatePaymentRequest_details _ _ _) as [details|e] eqn:Hrun;
      [|reflexivity].
    apply updatePaymentRequest_details_Return in Hrun.
    destruct Hrun as (t & items & ->). simpl.
    apply update_partial. by apply immutable_fields_not_updated.
  - intros k Hk. unfold updatePaymentRequestWithCart.
    destruct (updatePaymentRequestWithCart_details _) as [details|e] eqn:Hrun;
      [|reflexivity].
    apply updatePaymentRequestWithCart_details_Return in Hrun.
    destruct Hrun as (t & c & items & ->). simpl.
    apply update_partial. by apply immutable_fields_not_updated.
Qed.

(** ** The capability probe *)

(** C5: once the probe has answered, a falsy answer resolves to
    [{ canPay: false }], a truthy answer with a truthy [applePay] to
    [{ canPay: true, requestType: "apple_pay" }], and every other truthy
    answer, the empty object among them, to
    [{ canPay: true, requestType: "payment_request_api" }]. *)
Theorem canDoPaymentRequest_classifies (paymentRequest : H) (result : jsval) :
  canMakePayment paymentRequest = Fulfilled result ->
  canDoPaymentRequest paymentRequest =
    Fulfilled
      (if truthy result then
         if truthy (own_member result "applePay")
         then JObj {[ "canPay" := JBool true;
                      "requestType" := JStr "apple_pay" ]}
         else JObj {[ "canPay" := JBool true;
                      "requestType" := JStr "payment_request_api" ]}
       else JObj {[ "canPay" := JBool false ]}).
Proof.
  intros Hprobe. unfold canDoPaymentRequest, canDoPaymentRequest_resolved.
  rewrite Hprobe. destruct (truthy result) eqn:Hres; [|reflexivity].
  rewrite (get_member_truthy _ _ Hres).
  change (Return ?a ≫= ?f) with (f a). cbv beta.
  destruct (truthy (own_member result "applePay")); reflexivity.
Qed.

(** Until the probe answers, and when it is rejected, the promise stays
    pending. *)
Lemma canDoPaymentRequest_unanswered (paymentRequest : H) :
  (forall result, canMakePayment paymentRequest <> Fulfilled result) ->
  canDoPaymentRequest paymentRequest = Pending.
Proof.
  intros Hno. unfold canDoPaymentRequest.
  destruct (canMakePayment paymentRequest) as [|result|reason]; try reflexivity.
  by destruct (Hno result).
Qed.

End Handle.

(** ** The error classifier *)

Lemma object_literal_snoc (entries : list (string * jsval)) (k : string) (v : jsval) :
  object_literal (entries ++ [(k, v)]) = <[k := v]> (object_literal entries).
Proof. unfold object_literal. by rewrite foldl_app. Qed.

(** Whatever an object literal holds was written in it. *)
Lemma object_literal_lookup (entries : list (string * jsval)) (k : string) (v : jsval) :
  object_literal entries !! k = Some v -> (k, v) ∈ entries.
Proof.
  induction entries as [|[k' v'] entries IH] using rev_ind.
  - unfold object_literal. simpl. by rewrite lookup_empty.
  - rewrite object_literal_snoc, elem_of_app, list_elem_of_singleton.
    destruct (decide (k' = k)) as [->|Hne].
    + rewrite lookup_insert_eq. intros [= ->]. by right.
    + rewrite lookup_insert_ne by done. intros Hk. left. by apply IH.
Qed.

Lemma inherited_member_other (k : string) :
  k ∉ Object_prototype_names -> inherited_member k = JUndefined.
Proof. intros Hk. unfold inherited_member. by rewrite bool_decide_eq_false_2. Qed.

(** An inherited member is a built-in object, never a string. *)
Lemma inherited_member_builtin (k : string) :
  k ∈ Object_prototype_names -> exists name, inherited_member k = JBuiltin name.
Proof.
  intros Hk. unfold inherited_member. rewrite bool_decide_eq_true_2 by done.
  destruct (String.eqb k "__proto__"); [eauto|].
  destruct (String.eqb k "constructor"); eauto.
Qed.

Section Classifier.
Context {imports : Imports} {engine : Engine}.

(** A boolean is none of the five string constants. *)
Lemma isNonFriendlyError_bool (b : bool) : isNonFriendlyError (JBool b) = false.
Proof. reflexivity. Qed.

Lemma isNonFriendlyError_string (s : string) :
  isNonFriendlyError (JStr s) = true <->
  s ∈ [INVALID_REQUEST errorTypes; API_CONNECTION errorTypes;
       API_ERROR errorTypes; AUTHENTICATION_ERROR errorTypes;
       RATE_LIMIT_ERROR errorTypes].
Proof.
  unfold isNonFriendlyError. rewrite existsb_exists.
  setoid_rewrite <- list_elem_of_In. split.
  - intros (x & Hx & Heq). apply strict_equals_string_true in Heq.
    by injection Heq as ->.
  - intros Hs. exists s. split; [done|]. by apply strict_equals_string_true.
Qed.

(** The second [case] label is a boolean, so the only [type] it matches is
    the boolean [false]. *)
Lemma non_friendly_case_matches (type : jsval) :
  strict_equals_bool type (isNonFriendlyError type) = true <-> type = JBool false.
Proof.
  destruct type as [| |b| | |s|props|elems|name]; simpl;
    try (split; [discriminate | congruence]).
  rewrite isNonFriendlyError_bool. destruct b; simpl; split; congruence.
Qed.

(** The [switch] on a string type: the non-friendly label is skipped. *)
Lemma getErrorMessageForTypeAndCode_string (s : string) (code : jsval) :
  getErrorMessageForTypeAndCode (JStr s) code =
    if String.eqb s (INVALID_EMAIL errorTypes) then
      Return (JStr invalid_email_message)
    else if String.eqb s (CARD_ERROR errorTypes) then
      getErrorMessageForCode
        (match code with JUndefined => JStr "" | _ => code end)
    else if String.eqb s (VALIDATION_ERROR errorTypes) then Return (JStr "")
    else Return JNull.
Proof. reflexivity. Qed.

(** C2: a type among the five non-friendly constants (and none of the
    email, card and validation constants) gets no message at all: the
    [switch] compares the type with the boolean that [isNonFriendlyError]
    returns, which no string equals, and falls through to [null]. *)
Theorem non_friendly_type_falls_through (s : string) (code : jsval) :
  isNonFriendlyError (JStr s) = true ->
  s <> INVALID_EMAIL errorTypes ->
  s <> CARD_ERROR errorTypes ->
  s <> VALIDATION_ERROR errorTypes ->
  getErrorMessageForTypeAndCode (JStr s) code = Return JNull
  /\ getErrorMessageForTypeAndCode (JStr s) code
     <> Return (JStr generic_message).
Proof.
  intros _ Hemail Hcard Hvalid.
  rewrite getErrorMessageForTypeAndCode_string.
  apply String.eqb_neq in Hemail, Hcard, Hvalid.
  rewrite Hemail, Hcard, Hvalid. split; [reflexivity | discriminate].
Qed.




End Classifier.

(** ** The address normalizer *)

Lemma replace_space (c : ascii) (s : string) :
  replace (String c s) " " "" =
    if Ascii.eqb c " " then s else String c (replace s " " "").
Proof.
  cbn [replace String.prefix]. destruct (ascii_dec " " c) as [<-|Hne].
  - simpl. by destruct s.
  - apply Ascii.eqb_neq in Hne. rewrite Ascii.eqb_sym in Hne. by rewrite Hne.
Qed.

Lemma remove_spaces_none (s : string) :
  count_spaces s = 0 -> remove_spaces s = s.
Proof.
  induction s as [|c s IH]; simpl; [done|].
  destruct (Ascii.eqb c " "); simpl; [lia|]. intros Hs. by rewrite IH.
Qed.

Lemma replace_space_none (s : string) :
  count_spaces s = 0 -> replace s " " "" = s.
Proof.
  induction s as [|c s IH]; [done|]. rewrite replace_space. simpl.
  destruct (Ascii.eqb c " "); simpl; [lia|]. intros Hs. by rewrite IH.
Qed.

(** With at most one space in it, [replace] does remove all spaces. *)
Lemma replace_space_at_most_one (s : string) :
  count_spaces s <= 1 -> replace s " " "" = remove_spaces s.
Proof.
  induction s as [|c s IH]; [done|]. rewrite replace_space. simpl.
  destruct (Ascii.eqb c " "); simpl; intros Hs.
  - symmetry. apply remove_spaces_none. lia.
  - by rewrite IH.
Qed.

(** One call removes exactly one space, when there is one. *)
Lemma replace_space_count (s : string) :
  count_spaces (replace s " " "") = pred (count_spaces s).
Proof.
  induction s as [|c s IH]; [done|]. rewrite replace_space. simpl.
  destruct (Ascii.eqb c " ") eqn:Hc; simpl; [done|]. by rewrite Hc.
Qed.

Lemma ascii_toUpperCase_idempotent (c : ascii) :
  ascii_toUpperCase (ascii_toUpperCase c) = ascii_toUpperCase c.
Proof. by destruct c as [[] [] [] [] [] [] [] []]. Qed.

Lemma ascii_toUpperCase_space (c : ascii) :
  Ascii.eqb (ascii_toUpperCase c) " " = Ascii.eqb c " ".
Proof. by destruct c as [[] [] [] [] [] [] [] []]. Qed.

Lemma toUpperCase_idempotent (s : string) :
  toUpperCase_ascii (toUpperCase_ascii s) = toUpperCase_ascii s.
Proof.
  induction s as [|c s IH]; simpl; [done|].
  by rewrite ascii_toUpperCase_idempotent, IH.
Qed.

Lemma toUpperCase_count_spaces (s : string) :
  count_spaces (toUpperCase_ascii s) = count_spaces s.
Proof.
  induction s as [|c s IH]; simpl; [done|].
  by rewrite ascii_toUpperCase_space, IH.
Qed.

Lemma ascii_toUpperCase_ascii (c : ascii) :
  (nat_of_ascii (ascii_toUpperCase c) <? 128)%nat = (nat_of_ascii c <? 128)%nat.
Proof. by destruct c as [[] [] [] [] [] [] [] []]. Qed.

Lemma ascii_only_toUpperCase (s : string) :
  ascii_only (toUpperCase_ascii s) = ascii_only s.
Proof.
  induction s as [|c s IH]; simpl; [done|].
  by rewrite ascii_toUpperCase_ascii, IH.
Qed.

Lemma ascii_only_replace_space (s : string) :
  ascii_only s = true -> ascii_only (replace s " " "") = true.
Proof.
  induction s as [|c s IH]; [done|]. rewrite replace_space. simpl.
  intros [Hc Hs]%andb_true_iff.
  destruct (Ascii.eqb c " "); [done|]. simpl. by rewrite Hc, IH.
Qed.

Section Address.
Context {engine : Engine}.

(** What [pluckAddress] returns on an address whose postcode is a string. *)
Lemma pluckAddress_string (address : gmap string jsval) (s : string) :
  address !! "postcode" = Some (JStr s) ->
  pluckAddress (JObj address) =
    Return (JObj (object_literal
      [("country", own_member (JObj address) "country");
       ("state", own_member (JObj address) "state");
       ("city", own_member (JObj address) "city");
       ("postcode", JStr (toUpperCase (replace s " " "")))])).
Proof. intros Hs. unfold pluckAddress. simpl. by rewrite Hs. Qed.

(** The same on a postcode of ASCII characters, where the upper-casing is
    that of the letters a to z. *)
Lemma pluckAddress_ascii (address : gmap string jsval) (s : string) :
  address !! "postcode" = Some (JStr s) ->
  ascii_only s = true ->
  pluckAddress (JObj address) =
    Return (JObj (object_literal
      [("country", own_member (JObj address) "country");
       ("state", own_member (JObj address) "state");
       ("city", own_member (JObj address) "city");
       ("postcode", JStr (toUpperCase_ascii (replace s " " "")))])).
Proof.
  intros Hs Hascii. rewrite (pluckAddress_string _ _ Hs).
  by rewrite (toUpperCase_ascii_only _ (ascii_only_replace_space _ Hascii)).
Qed.

(** A postcode that is absent, or not a string, makes the call throw. *)
Lemma pluckAddress_not_a_string (address : jsval) :
  (forall s, own_member address "postcode" <> JStr s) ->
  throws (pluckAddress address) = true.
Proof.
  intros Hs. unfold pluckAddress.
  destruct address; try reflexivity; simpl in *;
    destruct (default JUndefined _) eqn:Hp; try reflexivity;
    by destruct (Hs s).
Qed.

(** C3: on the postcode " sw1a 1aa " the plucked postcode is "SW1A 1AA ":
    upper-cased, with the first space removed and the other two kept; it is
    not "SW1A1AA".  The other three fields are copied and nothing else. *)
Theorem pluckAddress_first_space_only :
  pluckAddress sample_address =
    Return (JObj {[ "country" := JStr "GB"; "state" := JStr "";
                    "city" := JStr "London";
                    "postcode" := JStr "SW1A 1AA " ]})
  /\ toUpperCase (remove_spaces " sw1a 1aa ") = "SW1A1AA"
  /\ "SW1A 1AA " <> "SW1A1AA".
Proof.
  split; [|split; [|discriminate]].
  - unfold sample_address.
    by erewrite (pluckAddress_ascii _ " sw1a 1aa ") by reflexivity.
  - by rewrite toUpperCase_ascii_only by reflexivity.
Qed.

(** C4: plucking the plucked address of " sw1a 1aa " removes one more
    space, so the second result differs from the first. *)
Theorem pluckAddress_not_idempotent :
  exists once twice,
    pluckAddress sample_address = Return once
    /\ pluckAddress once = Return twice
    /\ own_member once "postcode" = JStr "SW1A 1AA "
    /\ own_member twice "postcode" = JStr "SW1A1AA "
    /\ twice <> once.
Proof.
  eexists _, _. split.
  { unfold sample_address.
    by erewrite (pluckAddress_ascii _ " sw1a 1aa ") by reflexivity. }
  split.
  { by erewrite (pluckAddress_ascii _ "SW1A 1AA ") by reflexivity. }
  split; [reflexivity|]. split; [reflexivity|].
  intros Heq. apply (f_equal (fun a => own_member a "postcode")) in Heq.
  discriminate.
Qed.

(** Where the postcode, of ASCII characters, has at most one space, a
    second pass changes nothing. *)
Lemma pluckAddress_idempotent_at_most_one_space
    (address : gmap string jsval) (s : string) (once : jsval) :
  address !! "postcode" = Some (JStr s) ->
  ascii_only s = true ->
  count_spaces s <= 1 ->
  pluckAddress (JObj address) = Return once ->
  pluckAddress once = Return once.
Proof.
  intros Hs Hascii Hcount. rewrite (pluckAddress_ascii _ _ Hs Hascii).
  intros [= <-].
  erewrite pluckAddress_ascii; [|reflexivity|].
  - rewrite (replace_space_none (toUpperCase_ascii (replace s " " ""))).
    + by rewrite toUpperCase_idempotent.
    + rewrite toUpperCase_count_spaces, replace_space_count. lia.
  - rewrite ascii_only_toUpperCase. by apply ascii_only_replace_space.
Qed.

End Address.

(** ** Worked examples *)

(** The end-to-end example of the specification, on the code: a total of
    1000, "usd", the country code "PR" and one shipping line of 500. *)
Lemma getPaymentRequest_keeps_PR_witness :
  exists options,
    @getPaymentRequest_options sample_imports sample_total (JStr "usd")
      (JStr "PR") (JBool true) (JArr sample_items) = Return options
    /\ own_member options "country" = JStr "PR"
    /\ own_member options "country" <> JStr "US".
Proof.
  eexists. split; [reflexivity|].
  apply (@getPaymentRequest_keeps_PR sample_imports sample_total (JStr "usd")
           (JBool true) (JArr sample_items)).
  reflexivity.
Defined.

Lemma getPaymentRequest_requests_payer_info_witness :
  exists options,
    @getPaymentRequest_options sample_imports sample_total (JStr "usd")
      (JStr "") (JBool false) (JArr sample_items) = Return options
    /\ own_member options "requestPayerName" = JBool true
    /\ own_member options "requestPayerEmail" = JBool true
    /\ own_member options "requestPayerPhone" = JBool true.
Proof.
  eexists. split; [reflexivity|].
  apply (@getPaymentRequest_requests_payer_info sample_imports sample_total
           (JStr "usd") (JStr "") (JBool false) (JArr sample_items)).
  reflexivity.
Defined.

Lemma getPaymentRequest_displayItems_witness :
  exists options,
    @getPaymentRequest_options sample_imports sample_total (JStr "usd")
      (JStr "GB") (JBool true) (JArr sample_items) = Return options
    /\ exists displayItems,
         own_member options "displayItems" = JArr displayItems
         /\ length displayItems = length sample_items
         /\ forall (i : nat) (item : jsval), sample_items !! i = Some item ->
              exists displayItem,
                displayItems !! i = Some displayItem
                /\ own_member displayItem "amount" = own_member item "value"
                /\ own_member displayItem "label" = own_member item "label".
Proof.
  eexists. split; [reflexivity|].
  apply (@getPaymentRequest_displayItems sample_imports sample_total
           (JStr "usd") (JStr "GB") (JBool true)).
  reflexivity.
Defined.

(** The empty object is truthy: a probe answering [{}] can pay through the
    payment request API. *)
Lemma canDoPaymentRequest_classifies_witness :
  let paymentRequest :=
    {| handle_options := JObj ∅; handle_probe := Fulfilled (JObj ∅) |} in
  canMakePayment paymentRequest = Fulfilled (JObj ∅)
  /\ canDoPaymentRequest paymentRequest =
       Fulfilled (JObj {[ "canPay" := JBool true;
                          "requestType" := JStr "payment_request_api" ]}).
Proof.
  intros paymentRequest.
  assert (Hprobe : canMakePayment paymentRequest = Fulfilled (JObj ∅))
    by reflexivity.
  split; [exact Hprobe|].
  rewrite (canDoPaymentRequest_classifies paymentRequest (JObj ∅) Hprobe).
  reflexivity.
Defined.

Lemma non_friendly_type_falls_through_witness :
  @isNonFriendlyError sample_imports (JStr "invalid_request") = true
  /\ @getErrorMessageForTypeAndCode sample_imports reference_engine
       (JStr "invalid_request") (JStr "any_code") = Return JNull
  /\ @getErrorMessageForTypeAndCode sample_imports reference_engine
       (JStr "invalid_request") (JStr "any_code")
     <> Return (JStr (@generic_message sample_imports)).
Proof.
  split; [reflexivity|].
  apply (@non_friendly_type_falls_through sample_imports reference_engine
           "invalid_request" (JStr "any_code")); [reflexivity | discriminate..].
Defined.

Example canDoPaymentRequest_apple_pay :
  canDoPaymentRequest
    {| handle_options := JObj ∅;
       handle_probe := Fulfilled (JObj {[ "applePay" := JBool true ]}) |}
  = Fulfilled (JObj {[ "canPay" := JBool true;
                       "requestType" := JStr "apple_pay" ]}).
Proof. reflexivity. Qed.

Example canDoPaymentRequest_null :
  canDoPaymentRequest
    {| handle_options := JObj ∅; handle_probe := Fulfilled JNull |}
  = Fulfilled (JObj {[ "canPay" := JBool false ]}).
Proof. reflexivity. Qed.

Example canDoPaymentRequest_false :
  canDoPaymentRequest
    {| handle_options := JObj ∅; handle_probe := Fulfilled (JBool false) |}
  = Fulfilled (JObj {[ "canPay" := JBool false ]}).
Proof. reflexivity. Qed.

(** The one value that reaches the generic message is the boolean
    [false]. *)
Example generic_message_for_false :
  @getErrorMessageForTypeAndCode sample_imports reference_engine
    (JBool false) JUndefined
  = Return (JStr "Unable to process this payment, please try again or use alternative method.").
Proof. reflexivity. Qed.

Example card_error_expired :
  @getErrorMessageForTypeAndCode sample_imports reference_engine
    (JStr "card_error") (JStr "expired_card")
  = Return (JStr "The card has expired.").
Proof. reflexivity. Qed.

Example card_error_unknown_code :
  @getErrorMessageForTypeAndCode sample_imports reference_engine
    (JStr "card_error") (JStr "no_such_code") = Return JNull.
Proof. reflexivity. Qed.

Example validation_error_inline :
  @getErrorMessageForTypeAndCode sample_imports reference_engine
    (JStr "validation_error") JUndefined = Return (JStr "").
Proof. reflexivity. Qed.

(** With the server data present the key is returned as it is; without
    it, both accessors throw. *)
Example getApiKey_present :
  @getApiKey sample_imports = Return (JStr "pk_test_123").
Proof. reflexivity. Qed.

Example getApiKey_absent :
  @getStripeServerData bare_imports
    = Throw (Error "Stripe initialization data is not available")
  /\ @getApiKey bare_imports
    = Throw (Error "Stripe initialization data is not available").
Proof. split; reflexivity. Qed.

(** The builder defaults an empty country code; the cart builder maps
    "PR" and passes an empty code on. *)
Example getPaymentRequest_empty_country :
  (fun options => own_member options "country") <$>
    @getPaymentRequest_options sample_imports sample_total (JStr "usd")
      (JStr "") (JBool true) (JArr sample_items)
  = Return (JStr "US").
Proof. reflexivity. Qed.

Example createPaymentRequestUsingCart_PR :
  (fun options => own_member options "country") <$>
    @createPaymentRequestUsingCart_options sample_imports sample_cart
  = Return (JStr "US").
Proof. reflexivity. Qed.

(** An update of the reference handle created for "GB" keeps the country
    and replaces the currency. *)
Example updatePaymentRequest_reference :
  let paymentRequest :=
    {| handle_options :=
         JObj {[ "country" := JStr "GB"; "currency" := JStr "gbp" ]};
       handle_probe := Pending |} in
  let after :=
    (@updatePaymentRequest sample_imports _ _ paymentRequest sample_total
       (JStr "usd") (JArr sample_items)).1 in
  own_member (configuration after) "country" = JStr "GB"
  /\ own_member (configuration after) "currency" = JStr "usd".
Proof. split; reflexivity. Qed.

(** ** More on the total item and the two builders *)

Section BuilderEdges.
Context {imports : Imports}.

(** X1: [getTotalPaymentItem] throws exactly when the settings blob is
    falsy or the total is [undefined] or [null]; with the blob falsy the
    error is the blob's, whatever the total. *)
Theorem getTotalPaymentItem_throws (total : jsval) :
  throws (getTotalPaymentItem total)
    = negb (truthy (getSetting "stripe_data" JNull)) || nullish total
  /\ (truthy (getSetting "stripe_data" JNull) = false ->
      getTotalPaymentItem total
        = Throw (Error "Stripe initialization data is not available")).
Proof.
  unfold getTotalPaymentItem. rewrite getStripeServerData_eq.
  destruct (truthy (getSetting "stripe_data" JNull)) eqn:Hblob.
  - change (Return ?a ≫= ?f) with (f a). cbv beta.
    rewrite (get_member_truthy _ _ Hblob).
    change (Return ?a ≫= ?f) with (f a). cbv beta.
    split; [|discriminate]. by destruct total.
  - split; reflexivity.
Qed.

(** X2: the item that [getTotalPaymentItem] returns has a label and an
    amount and nothing else; the amount is the total's value, the label the
    configured [stripeTotalLabel] when that is truthy and the translated
    "Total" otherwise. *)
Theorem getTotalPaymentItem_item (total item : jsval) :
  getTotalPaymentItem total = Return item ->
  let custom := own_member (getSetting "stripe_data" JNull) "stripeTotalLabel" in
  exists props,
    item = JObj props
    /\ dom props = ({["label"; "amount"]} : gset string)
    /\ props !! "amount" = Some (own_member total "value")
    /\ props !! "label" =
         Some (if truthy custom then custom else JStr (__ "Total" text_domain)).
Proof.
  unfold getTotalPaymentItem. intros Hrun. invert_return Hrun.
  apply getStripeServerData_Return in Hv as [-> _].
  apply get_member_Return in Hv0, Hv1. subst. simpl.
  eexists. split; [reflexivity|]. split; [|split; reflexivity].
  unfold object_literal. simpl. rewrite !dom_insert_L, dom_empty_L. set_solver.
Qed.

(** X3: the country that [getPaymentRequest] hands to the vendor is the
    country code when that is truthy and "US" otherwise; it is never
    falsy. *)
Theorem getPaymentRequest_country_never_falsy
    (total currencyCode countryCode shippingRequired cartTotalItems options : jsval) :
  getPaymentRequest_options total currencyCode countryCode shippingRequired
    cartTotalItems = Return options ->
  own_member options "country"
    = (if truthy countryCode then countryCode else JStr "US")
  /\ truthy (own_member options "country") = true.
Proof.
  intros Hrun. rewrite (getPaymentRequest_options_country _ _ _ _ _ _ Hrun).
  unfold js_or. by destruct (truthy countryCode) eqn:Hc.
Qed.

(** X4: without the settings blob [getPaymentRequest] throws the blob's
    error, whatever the vendor's [paymentRequest] would do: the vendor is
    not reached. *)
Theorem getPaymentRequest_needs_server_data {H : Type}
    (stripe : jsval -> completion H)
    (total currencyCode countryCode shippingRequired cartTotalItems : jsval) :
  truthy (getSetting "stripe_data" JNull) = false ->
  getPaymentRequest stripe total currencyCode countryCode shippingRequired
    cartTotalItems
  = Throw (Error "Stripe initialization data is not available").
Proof.
  intros Hblob.
  unfold getPaymentRequest, getPaymentRequest_options, getTotalPaymentItem.
  by rewrite getStripeServerData_eq, Hblob.
Qed.

(** What the cart builder returns, when it returns. *)
Lemma createPaymentRequestUsingCart_options_Return (cart options : jsval) :
  createPaymentRequestUsingCart_options cart = Return options ->
  let order_data := own_member cart "order_data" in
  let country := own_member order_data "country_code" in
  options = JObj (object_literal
    [("total", own_member order_data "total");
     ("currency", own_member order_data "currency");
     ("country", if strict_equals_string country "PR" then JStr "US" else country);
     ("requestPayerName", JBool true);
     ("requestPayerEmail", JBool true);
     ("requestPayerPhone",
      own_member (own_member wc_stripe_payment_request_params "checkout")
        "needs_payer_phone");
     ("requestShipping", JBool (truthy (own_member cart "shipping_required")));
     ("displayItems", own_member order_data "displayItems")]).
Proof.
  unfold createPaymentRequestUsingCart_options. intros Hrun.
  invert_return Hrun.
  apply get_member_Return in Hv. subst v.
  apply get_member_Return in Hv0, Hv1, Hv2, Hv3, Hv5, Hv6. subst.
  apply get_member_Return in Hv4. by subst.
Qed.

(** X5: [createPaymentRequestUsingCart] never hands "PR" to the vendor:
    the cart's country code "PR" becomes "US" and every other code, an
    empty or missing one included, is passed as it is. *)
Theorem createPaymentRequestUsingCart_never_PR (cart options : jsval) :
  createPaymentRequestUsingCart_options cart = Return options ->
  let code := own_member (own_member cart "order_data") "country_code" in
  own_member options "country" <> JStr "PR"
  /\ (code = JStr "PR" -> own_member options "country" = JStr "US")
  /\ (code <> JStr "PR" -> own_member options "country" = code).
Proof.
  intros Hrun code. apply createPaymentRequestUsingCart_options_Return in Hrun.
  subst options. fold code.
  change (own_member (JObj _) "country")
    with (if strict_equals_string code "PR" then JStr "US" else code).
  destruct (strict_equals_string code "PR") eqn:Hpr.
  - apply strict_equals_string_true in Hpr.
    split; [discriminate|]. split; [done | congruence].
  - assert (code <> JStr "PR") as Hne.
    { intros Heq. apply strict_equals_string_true in Heq. congruence. }
    split; [done|]. split; [congruence | done].
Qed.

(** X6: the cart builder always asks for the payer's name and email, takes
    the phone flag from the global parameters, and turns the cart's
    [shipping_required] into a boolean. *)
Theorem createPaymentRequestUsingCart_flags (cart options : jsval) :
  createPaymentRequestUsingCart_options cart = Return options ->
  own_member options "requestPayerName" = JBool true
  /\ own_member options "requestPayerEmail" = JBool true
  /\ own_member options "requestPayerPhone"
       = own_member (own_member wc_stripe_payment_request_params "checkout")
           "needs_payer_phone"
  /\ own_member options "requestShipping"
       = JBool (truthy (own_member cart "shipping_required")).
Proof.
  intros Hrun. apply createPaymentRequestUsingCart_options_Return in Hrun.
  subst options. repeat split; reflexivity.
Qed.


End BuilderEdges.

(** ** More on the updater and the probe *)

Section HandleEdges.
Context {imports : Imports} {H : Type} {handle : PaymentRequestHandle H}.

(** X8: an update computed from the inputs of the build carries the very
    total, currency and display items of the built options. *)
Theorem updatePaymentRequest_matches_build
    (total currencyCode countryCode shippingRequired cartTotalItems : jsval)
    (options details : jsval) (k : string) :
  getPaymentRequest_options total currencyCode countryCode shippingRequired
    cartTotalItems = Return options ->
  updatePaymentRequest_details total currencyCode cartTotalItems
    = Return details ->
  k ∈ ["total"; "currency"; "displayItems"] ->
  own_member details k = own_member options k.
Proof.
  intros Hbuild Hupdate Hk.
  apply getPaymentRequest_options_Return in Hbuild.
  destruct Hbuild as (totalItem & displayItems & Htotal & Hitems & ->).
  unfold updatePaymentRequest_details in Hupdate.
  rewrite Htotal, Hitems in Hupdate. injection Hupdate as <-.
  rewrite !elem_of_cons, elem_of_nil in Hk.
  destruct Hk as [->|[->|[->|[]]]]; reflexivity.
Qed.

(** X9: without the settings blob [updatePaymentRequest] throws the blob's
    error and the handle is left as it was: its [update] is not called. *)
Theorem updatePaymentRequest_needs_server_data
    (paymentRequest : H) (total currencyCode cartTotalItems : jsval) :
  truthy (getSetting "stripe_data" JNull) = false ->
  updatePaymentRequest paymentRequest total currencyCode cartTotalItems
  = (paymentRequest,
     Throw (Error "Stripe initialization data is not available")).
Proof.
  intros Hblob.
  unfold updatePaymentRequest, updatePaymentRequest_details, getTotalPaymentItem.
  by rewrite getStripeServerData_eq, Hblob.
Qed.

(** X10: [updatePaymentRequestWithCart] throws exactly when the cart or its
    [order_data] is [undefined] or [null], and then leaves the handle as it
    was; otherwise it calls [update] once, with the total, currency and
    display items read from [order_data], a missing one being passed as
    [undefined]. *)
Theorem updatePaymentRequestWithCart_outcome (paymentRequest : H) (cart : jsval) :
  let order_data := own_member cart "order_data" in
  (nullish cart || nullish order_data = true ->
   exists e, updatePaymentRequestWithCart paymentRequest cart
             = (paymentRequest, Throw e))
  /\ (nullish cart || nullish order_data = false ->
      updatePaymentRequestWithCart paymentRequest cart
      = (update paymentRequest (JObj (object_literal
           [("total", own_member order_data "total");
            ("currency", own_member order_data "currency");
            ("displayItems", own_member order_data "displayItems")])),
         Return JUndefined)).
Proof.
  intros order_data. subst order_data.
  unfold updatePaymentRequestWithCart, updatePaymentRequestWithCart_details.
  destruct cart; simpl; try (split; [eauto | discriminate]);
    destruct (default JUndefined _); simpl;
    (split; [eauto | discriminate]) || (split; [discriminate | reflexivity]).
Qed.

(** X11: the promise of [canDoPaymentRequest] is never rejected, and it is
    fulfilled exactly when the probe is: a pending or rejected probe leaves
    it pending for good. *)
Theorem canDoPaymentRequest_settles (paymentRequest : H) :
  (forall reason, canDoPaymentRequest paymentRequest <> Rejected reason)
  /\ ((exists outcome, canDoPaymentRequest paymentRequest = Fulfilled outcome)
      <-> (exists result, canMakePayment paymentRequest = Fulfilled result)).
Proof.
  unfold canDoPaymentRequest, canDoPaymentRequest_resolved.
  destruct (canMakePayment paymentRequest) as [|result|reason].
  - split; [discriminate|]. split; intros [? ?]; discriminate.
  - destruct (truthy result) eqn:Hres.
    + rewrite (get_member_truthy _ _ Hres). simpl.
      split; [discriminate|]. split; eauto.
    + simpl. split; [discriminate|]. split; eauto.
  - split; [discriminate|]. split; intros [? ?]; discriminate.
Qed.

(** X12: in a fulfilled outcome [canPay] is the truthiness of the probe's
    answer, and [requestType] is there exactly when [canPay] is true, being
    then "apple_pay" or "payment_request_api". *)
Theorem canDoPaymentRequest_outcome_shape (paymentRequest : H) (result outcome : jsval) :
  canMakePayment paymentRequest = Fulfilled result ->
  canDoPaymentRequest paymentRequest = Fulfilled outcome ->
  own_member outcome "canPay" = JBool (truthy result)
  /\ (truthy result = false -> own_member outcome "requestType" = JUndefined)
  /\ (truthy result = true ->
      own_member outcome "requestType" = JStr "apple_pay"
      \/ own_member outcome "requestType" = JStr "payment_request_api").
Proof.
  intros Hprobe. unfold canDoPaymentRequest, canDoPaymentRequest_resolved.
  rewrite Hprobe. destruct (truthy result) eqn:Hres.
  - rewrite (get_member_truthy _ _ Hres).
    change (Return ?a ≫= ?f) with (f a). cbv beta.
    destruct (truthy (own_member result "applePay")); intros [= <-];
      (split; [reflexivity|]); (split; [discriminate|]); intros _;
      [left | right]; reflexivity.
  - intros [= <-]. split; [reflexivity|]. split; [reflexivity | discriminate].
Qed.

End HandleEdges.

(** ** More on the error classifier *)

(** With distinct keys, an object literal holds each of its entries. *)
Lemma object_literal_lookup_NoDup (entries : list (string * jsval))
    (k : string) (v : jsval) :
  NoDup (entries.*1) -> (k, v) ∈ entries -> object_literal entries !! k = Some v.
Proof.
  induction entries as [|[k' v'] entries IH] using rev_ind; [by intros _ ?%elem_of_nil|].
  rewrite fmap_app, NoDup_app, object_literal_snoc. simpl.
  intros (Hnodup & Hfresh & _) [Hin|Heq%list_elem_of_singleton]%elem_of_app.
  - rewrite lookup_insert_ne; [by apply IH|].
    intros ->. apply (Hfresh k); [|by left].
    apply list_elem_of_fmap. by exists (k, v).
  - injection Heq as -> ->. by rewrite lookup_insert_eq.
Qed.

Lemma object_literal_lookup_None (entries : list (string * jsval)) (k : string) :
  (forall v, (k, v) ∉ entries) -> object_literal entries !! k = None.
Proof.
  intros Hk. destruct (object_literal entries !! k) as [v|] eqn:Hlookup; [|done].
  by apply object_literal_lookup, Hk in Hlookup.
Qed.

Section ClassifierEdges.
Context {imports : Imports} {engine : Engine}.

(** X13: [isNonFriendlyError] answers true exactly for a string that is
    one of the five constants; a value that is not a string is never
    non-friendly. *)
Theorem isNonFriendlyError_iff (type : jsval) :
  isNonFriendlyError type = true <->
  exists s, type = JStr s
    /\ s ∈ [INVALID_REQUEST errorTypes; API_CONNECTION errorTypes;
            API_ERROR errorTypes; AUTHENTICATION_ERROR errorTypes;
            RATE_LIMIT_ERROR errorTypes].
Proof.
  split.
  - destruct type as [| |b| | |s|props|elems|name]; try discriminate.
    intros Hs. exists s. split; [done|]. by apply isNonFriendlyError_string.
  - intros (s & -> & Hs). by apply isNonFriendlyError_string.
Qed.

(** X14: the code matters for card errors only: for any other type the
    message does not depend on the code. *)
Theorem getErrorMessageForTypeAndCode_code_ignored (type code code' : jsval) :
  type <> JStr (CARD_ERROR errorTypes) ->
  getErrorMessageForTypeAndCode type code
  = getErrorMessageForTypeAndCode type code'.
Proof.
  intros Hcard. unfold getErrorMessageForTypeAndCode.
  destruct (strict_equals_string type (CARD_ERROR errorTypes)) eqn:Hc.
  - by apply strict_equals_string_true in Hc.
  - reflexivity.
Qed.

(** X15: with pairwise distinct code constants, a card error with a code
    of the table gets the message written beside that code, provided its
    translation is not empty. *)
Theorem getErrorMessageForTypeAndCode_known_code (k text : string) :
  NoDup (messages_entries.*1) ->
  CARD_ERROR errorTypes <> INVALID_EMAIL errorTypes ->
  (k, JStr text) ∈ messages_entries ->
  text <> "" ->
  getErrorMessageForTypeAndCode (JStr (CARD_ERROR errorTypes)) (JStr k)
  = Return (JStr text).
Proof.
  intros Hnodup Hemail Hin Htext.
  rewrite getErrorMessageForTypeAndCode_string.
  apply String.eqb_neq in Hemail. rewrite Hemail, String.eqb_refl.
  unfold getErrorMessageForCode. rewrite ToString_string.
  change (Return ?a ≫= ?f) with (f a). cbv beta.
  unfold computed_member, messages.
  rewrite (object_literal_lookup_NoDup _ _ _ Hnodup Hin).
  unfold js_or. by destruct text.
Qed.

(** X16: a card error whose code is neither a key of the table nor the
    name of a member inherited from [Object.prototype] gets [null]; an
    omitted code is looked up as the empty string. *)
Theorem getErrorMessageForTypeAndCode_unknown_code (code : jsval) (key : string) :
  CARD_ERROR errorTypes <> INVALID_EMAIL errorTypes ->
  ToString (match code with JUndefined => JStr "" | _ => code end)
    = Return key ->
  (forall v, (key, v) ∉ messages_entries) ->
  key ∉ Object_prototype_names ->
  getErrorMessageForTypeAndCode (JStr (CARD_ERROR errorTypes)) code
  = Return JNull.
Proof.
  intros Hemail Hkey Htable Hown.
  rewrite getErrorMessageForTypeAndCode_string.
  apply String.eqb_neq in Hemail. rewrite Hemail, String.eqb_refl.
  unfold getErrorMessageForCode. rewrite Hkey.
  change (Return ?a ≫= ?f) with (f a). cbv beta.
  unfold computed_member, messages.
  by rewrite (object_literal_lookup_None _ _ Htable),
    (inherited_member_other _ Hown).
Qed.

(** X17: the case of the generic message is taken for the boolean [false]
    and for no other type: every other type is classified by the email,
    card and validation cases alone. *)
Theorem generic_message_only_for_false (type code : jsval) :
  (type = JBool false ->
   getErrorMessageForTypeAndCode type code = Return (JStr generic_message))
  /\ (type <> JBool false ->
      getErrorMessageForTypeAndCode type code =
        if strict_equals_string type (INVALID_EMAIL errorTypes) then
          Return (JStr invalid_email_message)
        else if strict_equals_string type (CARD_ERROR errorTypes) then
          getErrorMessageForCode
            (match code with JUndefined => JStr "" | _ => code end)
        else if strict_equals_string type (VALIDATION_ERROR errorTypes) then
          Return (JStr "")
        else Return JNull).
Proof.
  split.
  - intros ->. reflexivity.
  - intros Hfalse. unfold getErrorMessageForTypeAndCode.
    destruct (strict_equals_string type (INVALID_EMAIL errorTypes)); [done|].
    destruct (strict_equals_bool type (isNonFriendlyError type)) eqn:Hcase;
      [|done].
    by apply non_friendly_case_matches in Hcase.
Qed.

(** X30: a card error whose code is the name of a member inherited from
    [Object.prototype], and not a key of the table, gets that member: a
    built-in object, not a message and not [null]. *)
Theorem getErrorMessageForTypeAndCode_inherited_code (key : string) :
  CARD_ERROR errorTypes <> INVALID_EMAIL errorTypes ->
  (forall v, (key, v) ∉ messages_entries) ->
  key ∈ Object_prototype_names ->
  exists name,
    getErrorMessageForTypeAndCode (JStr (CARD_ERROR errorTypes)) (JStr key)
    = Return (JBuiltin name).
Proof.
  intros Hemail Htable Hown.
  rewrite getErrorMessageForTypeAndCode_string.
  apply String.eqb_neq in Hemail. rewrite Hemail, String.eqb_refl.
  unfold getErrorMessageForCode. rewrite ToString_string.
  change (Return ?a ≫= ?f) with (f a). cbv beta.
  unfold computed_member, messages.
  rewrite (object_literal_lookup_None _ _ Htable).
  destruct (inherited_member_builtin _ Hown) as [name ->]. by exists name.
Qed.

End ClassifierEdges.

(** ** More on the address normalizer *)

Lemma toUpperCase_replace_space (s : string) :
  toUpperCase_ascii (replace s " " "") = replace (toUpperCase_ascii s) " " "".
Proof.
  induction s as [|c s IH]; [done|].
  cbn [toUpperCase_ascii]. rewrite !replace_space, ascii_toUpperCase_space.
  destruct (Ascii.eqb c " "); [done|]. cbn [toUpperCase_ascii]. by rewrite IH.
Qed.

Lemma ascii_toUpperCase_not_lowercase (c : ascii) :
  let n := nat_of_ascii (ascii_toUpperCase c) in
  (97 <=? n)%nat && (n <=? 122)%nat = false.
Proof. by destruct c as [[] [] [] [] [] [] [] []]. Qed.

Lemma toUpperCase_no_lowercase (s : string) :
  has_lowercase (toUpperCase_ascii s) = false.
Proof.
  induction s as [|c s IH]; [done|]. cbn [toUpperCase_ascii has_lowercase].
  rewrite IH. pose proof (ascii_toUpperCase_not_lowercase c) as Hc.
  cbv zeta in Hc. by rewrite Hc.
Qed.

Lemma toUpperCase_length (s : string) :
  String.length (toUpperCase_ascii s) = String.length s.
Proof. induction s as [|c s IH]; simpl; [done | by rewrite IH]. Qed.

Lemma replace_space_length (s : string) :
  String.length (replace s " " "")
  = String.length s - (if decide (count_spaces s = 0) then 0 else 1).
Proof.
  induction s as [|c s IH]; [done|]. rewrite replace_space.
  cbn [count_spaces String.length].
  destruct (Ascii.eqb c " "); simpl; [lia|].
  rewrite IH. case_decide; [lia|].
  destruct s as [|c' s]; simpl in *; [done | lia].
Qed.

Section AddressEdges.
Context {engine : Engine}.

(** The postcode of an address, when the address has one that is a
    string. *)
Lemma own_member_postcode (address : jsval) (s : string) :
  own_member address "postcode" = JStr s ->
  exists props, address = JObj props /\ props !! "postcode" = Some (JStr s).
Proof.
  destruct address; try discriminate. simpl.
  destruct (props !! "postcode") as [v|] eqn:Hp; [|discriminate].
  simpl. intros ->. eauto.
Qed.


(** X19: the plucked address has the four fields country, state, city and
    postcode and no other; the first three are those of the address, a
    missing one being [undefined]. *)
Theorem pluckAddress_fields (address plucked : jsval) :
  pluckAddress address = Return plucked ->
  exists props,
    plucked = JObj props
    /\ dom props = ({["country"; "state"; "city"; "postcode"]} : gset string)
    /\ props !! "country" = Some (own_member address "country")
    /\ props !! "state" = Some (own_member address "state")
    /\ props !! "city" = Some (own_member address "city").
Proof.
  unfold pluckAddress. intros Hrun. invert_return Hrun.
  apply get_member_Return in Hv, Hv0, Hv1. subst.
  destruct v2; try discriminate. injection Hrun as <-.
  eexists. split; [reflexivity|]. split; [|repeat split; reflexivity].
  unfold object_literal. simpl. rewrite !dom_insert_L, dom_empty_L. set_solver.
Qed.

(** X20: on a postcode of ASCII characters, the plucked postcode has no
    lower-case letter, one space less than the postcode when that has a
    space, and is shorter by that one character. *)
Theorem pluckAddress_postcode_shape (address plucked : jsval) (s : string) :
  own_member address "postcode" = JStr s ->
  ascii_only s = true ->
  pluckAddress address = Return plucked ->
  exists p,
    own_member plucked "postcode" = JStr p
    /\ has_lowercase p = false
    /\ count_spaces p = pred (count_spaces s)
    /\ String.length p
       = String.length s - (if decide (count_spaces s = 0) then 0 else 1).
Proof.
  intros (props & -> & Hp)%own_member_postcode Hascii.
  rewrite (pluckAddress_ascii _ _ Hp Hascii). intros [= <-].
  exists (toUpperCase_ascii (replace s " " "")). split; [reflexivity|].
  rewrite toUpperCase_no_lowercase, toUpperCase_count_spaces,
    replace_space_count, toUpperCase_length, replace_space_length.
  done.
Qed.

(** X21: on a postcode with at most one space, the plucked postcode is the
    postcode without its spaces, upper-cased by the engine. *)
Theorem pluckAddress_at_most_one_space (address plucked : jsval) (s : string) :
  own_member address "postcode" = JStr s ->
  count_spaces s <= 1 ->
  pluckAddress address = Return plucked ->
  own_member plucked "postcode" = JStr (toUpperCase (remove_spaces s)).
Proof.
  intros (props & -> & Hp)%own_member_postcode Hcount.
  rewrite (pluckAddress_string _ _ Hp). intros [= <-].
  by rewrite <- (replace_space_at_most_one _ Hcount).
Qed.

(** X22: two addresses with the same country, state and city, whose
    postcodes have at most one space each and are the same once the spaces
    are removed and the engine has upper-cased them, are plucked to the
    same value. *)
Theorem pluckAddress_formatting_variants
    (address address' plucked plucked' : jsval) (s s' : string) :
  own_member address "country" = own_member address' "country" ->
  own_member address "state" = own_member address' "state" ->
  own_member address "city" = own_member address' "city" ->
  own_member address "postcode" = JStr s ->
  own_member address' "postcode" = JStr s' ->
  count_spaces s <= 1 ->
  count_spaces s' <= 1 ->
  toUpperCase (remove_spaces s) = toUpperCase (remove_spaces s') ->
  pluckAddress address = Return plucked ->
  pluckAddress address' = Return plucked' ->
  plucked = plucked'.
Proof.
  intros Hcountry Hstate Hcity (props & -> & Hp)%own_member_postcode
    (props' & -> & Hp')%own_member_postcode Hcount Hcount' Hsame.
  rewrite (pluckAddress_string _ _ Hp), (pluckAddress_string _ _ Hp').
  intros [= <-] [= <-].
  cbn [own_member] in *. rewrite Hcountry, Hstate, Hcity.
  by rewrite (replace_space_at_most_one _ Hcount),
    (replace_space_at_most_one _ Hcount'), Hsame.
Qed.

(** X23: on a postcode of ASCII characters [pluckAddress] does not tell
    the case of the letters: an address and the same address with its
    postcode upper-cased are plucked alike. *)
Theorem pluckAddress_case_insensitive (address : gmap string jsval) (s : string) :
  address !! "postcode" = Some (JStr s) ->
  ascii_only s = true ->
  pluckAddress (JObj (<["postcode" := JStr (toUpperCase s)]> address))
  = pluckAddress (JObj address).
Proof.
  intros Hp Hascii. rewrite (pluckAddress_ascii _ _ Hp Hascii).
  rewrite (toUpperCase_ascii_only _ Hascii).
  erewrite pluckAddress_ascii;
    [|apply lookup_insert_eq | by rewrite ascii_only_toUpperCase].
  simpl. rewrite !lookup_insert_ne by done.
  by rewrite <- toUpperCase_replace_space, toUpperCase_idempotent.
Qed.

(** X29: for an address whose postcode, of ASCII characters, has at most
    one space, plucking the plucked address gives the plucked address
    again. *)
Theorem pluckAddress_twice_at_most_one_space (address once : jsval) (s : string) :
  own_member address "postcode" = JStr s ->
  ascii_only s = true ->
  count_spaces s <= 1 ->
  pluckAddress address = Return once ->
  pluckAddress once = Return once.
Proof.
  intros (props & -> & Hp)%own_member_postcode Hascii Hcount.
  by apply (pluckAddress_idempotent_at_most_one_space props s).
Qed.

End AddressEdges.

(** ** More on the configuration *)

Section ConfigurationEdges.
Context {imports : Imports}.

(** X24: [getApiKey] tells the two failures apart: without the settings
    blob it throws the blob's error, with a blob that has no truthy
    [publicKey] its own. *)
Theorem getApiKey_errors :
  let blob := getSetting "stripe_data" JNull in
  (truthy blob = false ->
   getApiKey = Throw (Error "Stripe initialization data is not available"))
  /\ (truthy blob = true ->
      truthy (own_member blob "publicKey") = false ->
      getApiKey = Throw (Error "There is no api key available for stripe. Make sure it is available on the wc.stripe_data.stripe.key property.")).
Proof.
  intros blob. unfold getApiKey. rewrite getStripeServerData_eq. fold blob.
  split.
  - by intros ->.
  - intros Hblob Hkey. rewrite Hblob.
    change (Return ?a ≫= ?f) with (f a). cbv beta.
    rewrite (get_member_truthy _ _ Hblob).
    change (Return ?a ≫= ?f) with (f a). cbv beta.
    by rewrite Hkey.
Qed.

End ConfigurationEdges.

(** ** The express payment component *)

Section ComponentEdges.
Context {imports : Imports} {engine : Engine} {H : Type}.

(** The component past its reading of the server data and its template
    literal. *)
Lemma PaymentRequestExpressComponent_eq
    (shouldUseGooglePayBrand : bool) (paymentRequest : option H) (height : string) :
  let blob := getSetting "stripe_data" JNull in
  let button := own_member blob "button" in
  truthy blob = true ->
  nullish button = false ->
  ToString (default_undefined (own_member button "height") (JStr "48"))
    = Return height ->
  PaymentRequestExpressComponent shouldUseGooglePayBrand paymentRequest =
    Return
      match paymentRequest with
      | None => None
      | Some handle =>
          if truthy (own_member button "is_custom") then
            Some (CustomButton handle)
          else if truthy (own_member button "is_branded")
                  && shouldUseGooglePayBrand then
            Some (GooglePayButton handle)
          else
            Some (PaymentRequestButtonElement
              (paymentRequestButtonStyle
                 (if truthy (own_member button "is_branded") then
                    if strict_equals_string (own_member button "branded_type") "long"
                    then JStr "buy" else JStr "default"
                  else default_undefined (own_member button "type") (JStr "default"))
                 (default_undefined (own_member button "theme") (JStr "dark"))
                 height)
              handle)
      end.
Proof.
  intros blob button Hblob Hbutton Hheight.
  unfold PaymentRequestExpressComponent.
  rewrite getStripeServerData_eq. fold blob. rewrite Hblob.
  change (Return ?a ≫= ?f) with (f a). cbv beta.
  rewrite (get_member_truthy _ _ Hblob). fold button.
  change (Return ?a ≫= ?f) with (f a). cbv beta. rewrite Hbutton, Hheight.
  change (Return ?a ≫= ?f) with (f a). cbv beta.
  destruct paymentRequest as [handle|]; [|reflexivity].
  destruct (truthy (own_member button "is_custom")); [reflexivity|].
  destruct (truthy (own_member button "is_branded") && shouldUseGooglePayBrand);
    reflexivity.
Qed.

(** When the component returns, the server data had a button section and
    the height could be converted. *)
Lemma PaymentRequestExpressComponent_Return
    (shouldUseGooglePayBrand : bool) (paymentRequest : option H)
    (rendered : option (element H)) :
  let blob := getSetting "stripe_data" JNull in
  let button := own_member blob "button" in
  PaymentRequestExpressComponent shouldUseGooglePayBrand paymentRequest
    = Return rendered ->
  truthy blob = true /\ nullish button = false
  /\ exists height,
       ToString (default_undefined (own_member button "height") (JStr "48"))
         = Return height.
Proof.
  intros blob button. unfold PaymentRequestExpressComponent.
  rewrite getStripeServerData_eq. fold blob.
  destruct (truthy blob) eqn:Hblob; [|discriminate].
  change (Return ?a ≫= ?f) with (f a). cbv beta.
  rewrite (get_member_truthy _ _ Hblob). fold button.
  change (Return ?a ≫= ?f) with (f a). cbv beta.
  destruct (nullish button); [discriminate|].
  destruct (ToString _) as [height|e]; [eauto | discriminate].
Qed.


(** X26: when the component returns, it returns [null] exactly when there
    is no payment request; with one it returns an element holding that
    very handle. *)
Theorem PaymentRequestExpressComponent_null
    (shouldUseGooglePayBrand : bool) (paymentRequest : option H)
    (rendered : option (element H)) :
  PaymentRequestExpressComponent shouldUseGooglePayBrand paymentRequest
    = Return rendered ->
  match paymentRequest with
  | None => rendered = None
  | Some handle =>
      rendered = Some (CustomButton handle)
      \/ rendered = Some (GooglePayButton handle)
      \/ exists style, rendered = Some (PaymentRequestButtonElement style handle)
  end.
Proof.
  intros Hrun.
  destruct (PaymentRequestExpressComponent_Return _ _ _ Hrun)
    as (Hblob & Hbutton & height & Hheight).
  rewrite (PaymentRequestExpressComponent_eq _ _ _ Hblob Hbutton Hheight) in Hrun.
  injection Hrun as <-. destruct paymentRequest as [handle|]; [|reflexivity].
  set (button := own_member (getSetting "stripe_data" JNull) "button").
  destruct (truthy (own_member button "is_custom")); [by left|].
  destruct (truthy (own_member button "is_branded") && shouldUseGooglePayBrand);
    [by right; left | right; right; eauto].
Qed.

(** X27: the custom button wins over the branded ones, and the Google Pay
    button is chosen only for a branded button that is not custom. *)
Theorem PaymentRequestExpressComponent_precedence
    (shouldUseGooglePayBrand : bool) (handle : H) (rendered : element H) :
  let button := own_member (getSetting "stripe_data" JNull) "button" in
  PaymentRequestExpressComponent shouldUseGooglePayBrand (Some handle)
    = Return (Some rendered) ->
  (rendered = CustomButton handle <-> truthy (own_member button "is_custom") = true)
  /\ (rendered = GooglePayButton handle <->
      truthy (own_member button "is_custom") = false
      /\ truthy (own_member button "is_branded") = true
      /\ shouldUseGooglePayBrand = true).
Proof.
  intros button Hrun.
  destruct (PaymentRequestExpressComponent_Return _ _ _ Hrun)
    as (Hblob & Hbutton & height & Hheight).
  rewrite (PaymentRequestExpressComponent_eq _ _ _ Hblob Hbutton Hheight) in Hrun.
  fold button in Hrun. injection Hrun as Hrun.
  destruct (truthy (own_member button "is_custom")).
  { injection Hrun as <-. split; [done|]. split; [discriminate | by intros []]. }
  destruct (truthy (own_member button "is_branded")), shouldUseGooglePayBrand;
    simpl in Hrun; injection Hrun as <-;
    (split; [split; discriminate|]); split;
    first [done | discriminate | by intros (_ & ? & ?)].
Qed.

(** X28: the style of the vendor's button: the height is the text that the
    engine makes of the configured height, of "48" by default, followed by
    "px"; the theme is the configured one, "dark" by default; the type of a
    branded button is "buy" for the branded type "long" and "default"
    otherwise, whatever type is configured, and that of another button the
    configured type, "default" by default. *)
Theorem PaymentRequestExpressComponent_style
    (shouldUseGooglePayBrand : bool) (handle : H) (style : jsval) :
  let button := own_member (getSetting "stripe_data" JNull) "button" in
  PaymentRequestExpressComponent shouldUseGooglePayBrand (Some handle)
    = Return (Some (PaymentRequestButtonElement style handle)) ->
  let options := own_member style "paymentRequestButton" in
  (exists height,
     ToString (default_undefined (own_member button "height") (JStr "48"))
       = Return height
     /\ own_member options "height" = JStr (height +:+ "px"))
  /\ (own_member button "height" = JUndefined ->
      own_member options "height" = JStr "48px")
  /\ own_member options "theme"
     = default_undefined (own_member button "theme") (JStr "dark")
  /\ own_member options "type"
     = (if truthy (own_member button "is_branded") then
          if strict_equals_string (own_member button "branded_type") "long"
          then JStr "buy" else JStr "default"
        else default_undefined (own_member button "type") (JStr "default")).
Proof.
  intros button Hrun.
  destruct (PaymentRequestExpressComponent_Return _ _ _ Hrun)
    as (Hblob & Hbutton & height & Hheight).
  rewrite (PaymentRequestExpressComponent_eq _ _ _ Hblob Hbutton Hheight) in Hrun.
  fold button in Hrun, Hheight. injection Hrun as Hrun.
  destruct (truthy (own_member button "is_custom")); [discriminate|].
  destruct (truthy (own_member button "is_branded") && shouldUseGooglePayBrand);
    [discriminate|].
  injection Hrun as <-. split; [by exists height|]. split; [|split; reflexivity].
  intros Hundefined. rewrite Hundefined in Hheight. simpl in Hheight.
  rewrite ToString_string in Hheight. by injection Hheight as <-.
Qed.

End ComponentEdges.

(** ** Worked examples for the further properties *)

Lemma getTotalPaymentItem_item_witness :
  exists item,
    @getTotalPaymentItem sample_imports sample_total = Return item
    /\ exists props,
         item = JObj props
         /\ dom props = ({["label"; "amount"]} : gset string)
         /\ props !! "amount" = Some (JNum 1000)
         /\ props !! "label" = Some (JStr "Total").
Proof.
  eexists. split; [reflexivity|].
  apply (@getTotalPaymentItem_item sample_imports sample_total). reflexivity.
Defined.

Lemma getPaymentRequest_country_never_falsy_witness :
  exists options,
    @getPaymentRequest_options sample_imports sample_total (JStr "usd")
      JUndefined (JBool true) (JArr sample_items) = Return options
    /\ own_member options "country" = JStr "US"
    /\ truthy (own_member options "country") = true.
Proof.
  eexists. split; [reflexivity|].
  apply (@getPaymentRequest_country_never_falsy sample_imports sample_total
           (JStr "usd") JUndefined (JBool true) (JArr sample_items)).
  reflexivity.
Defined.

Lemma getPaymentRequest_needs_server_data_witness :
  truthy (@getSetting bare_imports "stripe_data" JNull) = false
  /\ @getPaymentRequest bare_imports _ reference_stripe sample_total
       (JStr "usd") (JStr "GB") (JBool true) (JArr sample_items)
     = Throw (Error "Stripe initialization data is not available").
Proof.
  split; [reflexivity|].
  apply (@getPaymentRequest_needs_server_data bare_imports). reflexivity.
Defined.

Lemma createPaymentRequestUsingCart_never_PR_witness :
  exists options,
    @createPaymentRequestUsingCart_options sample_imports sample_cart
      = Return options
    /\ own_member options "country" <> JStr "PR"
    /\ (JStr "PR" = JStr "PR" -> own_member options "country" = JStr "US")
    /\ (JStr "PR" <> JStr "PR" -> own_member options "country" = JStr "PR").
Proof.
  eexists. split; [reflexivity|].
  apply (@createPaymentRequestUsingCart_never_PR sample_imports sample_cart).
  reflexivity.
Defined.

Lemma createPaymentRequestUsingCart_flags_witness :
  exists options,
    @createPaymentRequestUsingCart_options sample_imports sample_cart
      = Return options
    /\ own_member options "requestPayerName" = JBool true
    /\ own_member options "requestPayerEmail" = JBool true
    /\ own_member options "requestPayerPhone" = JBool false
    /\ own_member options "requestShipping" = JBool true.
Proof.
  eexists. split; [reflexivity|].
  apply (@createPaymentRequestUsingCart_flags sample_imports sample_cart).
  reflexivity.
Defined.

Lemma updatePaymentRequest_matches_build_witness :
  exists options details,
    @getPaymentRequest_options sample_imports sample_total (JStr "usd")
      (JStr "GB") (JBool true) (JArr sample_items) = Return options
    /\ @updatePaymentRequest_details sample_imports sample_total (JStr "usd")
         (JArr sample_items) = Return details
    /\ own_member details "displayItems" = own_member options "displayItems".
Proof.
  eexists _, _. split; [reflexivity|]. split; [reflexivity|].
  apply (@updatePaymentRequest_matches_build sample_imports sample_total
           (JStr "usd") (JStr "GB") (JBool true) (JArr sample_items));
    [reflexivity | reflexivity |].
  apply list_elem_of_further, list_elem_of_further, list_elem_of_here.
Defined.

Lemma updatePaymentRequest_needs_server_data_witness :
  let paymentRequest :=
    {| handle_options := JObj ∅; handle_probe := Pending |} in
  truthy (@getSetting bare_imports "stripe_data" JNull) = false
  /\ @updatePaymentRequest bare_imports _ _ paymentRequest sample_total
       (JStr "usd") (JArr sample_items)
     = (paymentRequest,
        Throw (Error "Stripe initialization data is not available")).
Proof.
  intros paymentRequest. split; [reflexivity|].
  apply (@updatePaymentRequest_needs_server_data bare_imports). reflexivity.
Defined.

Lemma canDoPaymentRequest_outcome_shape_witness :
  let answer := JObj {[ "applePay" := JBool true ]} in
  let paymentRequest :=
    {| handle_options := JObj ∅; handle_probe := Fulfilled answer |} in
  exists outcome,
    canMakePayment paymentRequest = Fulfilled answer
    /\ canDoPaymentRequest paymentRequest = Fulfilled outcome
    /\ own_member outcome "canPay" = JBool (truthy answer)
    /\ (truthy answer = false -> own_member outcome "requestType" = JUndefined)
    /\ (truthy answer = true ->
        own_member outcome "requestType" = JStr "apple_pay"
        \/ own_member outcome "requestType" = JStr "payment_request_api").
Proof.
  intros answer paymentRequest. eexists.
  assert (Hprobe : canMakePayment paymentRequest = Fulfilled answer)
    by reflexivity.
  split; [exact Hprobe|]. split; [reflexivity|].
  apply (canDoPaymentRequest_outcome_shape paymentRequest answer _ Hprobe).
  reflexivity.
Defined.

Lemma getErrorMessageForTypeAndCode_code_ignored_witness :
  JStr "validation_error" <> JStr (CARD_ERROR (@errorTypes sample_imports))
  /\ @getErrorMessageForTypeAndCode sample_imports reference_engine
       (JStr "validation_error") (JStr "expired_card")
     = @getErrorMessageForTypeAndCode sample_imports reference_engine
         (JStr "validation_error") JUndefined.
Proof.
  split; [discriminate|].
  apply (@getErrorMessageForTypeAndCode_code_ignored sample_imports
           reference_engine).
  discriminate.
Defined.

Lemma getErrorMessageForTypeAndCode_known_code_witness :
  NoDup ((@messages_entries sample_imports).*1)
  /\ @getErrorMessageForTypeAndCode sample_imports reference_engine
       (JStr "card_error") (JStr "card_declined")
     = Return (JStr "The card was declined.").
Proof.
  assert (Hnodup : NoDup ((@messages_entries sample_imports).*1)).
  { apply (bool_decide_unpack _). vm_compute. exact I. }
  split; [exact Hnodup|].
  apply (@getErrorMessageForTypeAndCode_known_code sample_imports
           reference_engine "card_declined" "The card was declined." Hnodup);
    [discriminate | | discriminate].
  unfold messages_entries.
  repeat first [apply list_elem_of_here | apply list_elem_of_further].
Defined.

Lemma sample_messages_no_entry (key : string) (v : jsval) :
  key ∉ (@messages_entries sample_imports).*1 ->
  (key, v) ∉ @messages_entries sample_imports.
Proof.
  intros Hkey Hin. apply Hkey, list_elem_of_fmap. by exists (key, v).
Qed.

Lemma getErrorMessageForTypeAndCode_unknown_code_witness :
  ("no_such_code" ∉ Object_prototype_names)
  /\ @getErrorMessageForTypeAndCode sample_imports reference_engine
       (JStr "card_error") (JStr "no_such_code") = Return JNull.
Proof.
  assert (Hown : "no_such_code" ∉ Object_prototype_names).
  { apply (bool_decide_unpack _). vm_compute. exact I. }
  split; [exact Hown|].
  apply (@getErrorMessageForTypeAndCode_unknown_code sample_imports
           reference_engine (JStr "no_such_code") "no_such_code");
    [discriminate | reflexivity | | exact Hown].
  intros v. apply sample_messages_no_entry.
  apply (bool_decide_unpack _). vm_compute. exact I.
Defined.

(** The code "constructor" of a card error gets the function [Object]. *)
Lemma getErrorMessageForTypeAndCode_inherited_code_witness :
  ("constructor" ∈ Object_prototype_names)
  /\ exists name,
       @getErrorMessageForTypeAndCode sample_imports reference_engine
         (JStr "card_error") (JStr "constructor") = Return (JBuiltin name).
Proof.
  assert (Hown : "constructor" ∈ Object_prototype_names).
  { apply (bool_decide_unpack _). vm_compute. exact I. }
  split; [exact Hown|].
  apply (@getErrorMessageForTypeAndCode_inherited_code sample_imports
           reference_engine "constructor"); [discriminate | | exact Hown].
  intros v. apply sample_messages_no_entry.
  apply (bool_decide_unpack _). vm_compute. exact I.
Defined.



Lemma pluckAddress_fields_witness :
  exists plucked props,
    @pluckAddress reference_engine sample_address = Return plucked
    /\ plucked = JObj props
    /\ dom props = ({["country"; "state"; "city"; "postcode"]} : gset string)
    /\ props !! "country" = Some (JStr "GB")
    /\ props !! "state" = Some (JStr "")
    /\ props !! "city" = Some (JStr "London").
Proof.
  destruct (@pluckAddress_fields reference_engine sample_address
              (JObj {[ "country" := JStr "GB"; "state" := JStr "";
                       "city" := JStr "London";
                       "postcode" := JStr "SW1A 1AA " ]}) eq_refl)
    as (props & Hplucked & Hdom & Hcountry & Hstate & Hcity).
  exists (JObj props), props.
  split; [by rewrite <- Hplucked|]. split; [reflexivity|].
  split; [exact Hdom|]. split; [exact Hcountry|]. split; [exact Hstate|].
  exact Hcity.
Defined.

Lemma pluckAddress_postcode_shape_witness :
  exists plucked p,
    own_member sample_address "postcode" = JStr " sw1a 1aa "
    /\ ascii_only " sw1a 1aa " = true
    /\ @pluckAddress reference_engine sample_address = Return plucked
    /\ own_member plucked "postcode" = JStr p
    /\ has_lowercase p = false
    /\ count_spaces p = 2
    /\ String.length p = 9.
Proof.
  destruct (@pluckAddress_postcode_shape reference_engine sample_address
              (JObj {[ "country" := JStr "GB"; "state" := JStr "";
                       "city" := JStr "London";
                       "postcode" := JStr "SW1A 1AA " ]})
              " sw1a 1aa " eq_refl eq_refl eq_refl)
    as (p & Hp & Hlower & Hspaces & Hlength).
  eexists _, p. split; [reflexivity|]. split; [reflexivity|].
  split; [reflexivity|].
  split; [exact Hp|]. split; [exact Hlower|]. split; [exact Hspaces|].
  exact Hlength.
Defined.

Lemma pluckAddress_at_most_one_space_witness :
  let address := JObj {[ "country" := JStr "GB"; "postcode" := JStr "sw1a 1aa" ]} in
  exists plucked,
    @pluckAddress reference_engine address = Return plucked
    /\ count_spaces "sw1a 1aa" <= 1
    /\ own_member plucked "postcode" = JStr "SW1A1AA".
Proof.
  intros address. eexists. split; [reflexivity|].
  split; [simpl; lia|].
  apply (@pluckAddress_at_most_one_space reference_engine address _ "sw1a 1aa");
    [reflexivity | simpl; lia | reflexivity].
Defined.

(** "SW1A 1AA" and "sw1a1aa" are plucked to the same address. *)
Lemma pluckAddress_formatting_variants_witness :
  let address := JObj {[ "country" := JStr "GB"; "postcode" := JStr "SW1A 1AA" ]} in
  let address' := JObj {[ "country" := JStr "GB"; "postcode" := JStr "sw1a1aa" ]} in
  exists plucked plucked',
    @pluckAddress reference_engine address = Return plucked
    /\ @pluckAddress reference_engine address' = Return plucked'
    /\ plucked = plucked'.
Proof.
  intros address address'. eexists _, _.
  split; [reflexivity|]. split; [reflexivity|].
  apply (@pluckAddress_formatting_variants reference_engine address address'
           _ _ "SW1A 1AA" "sw1a1aa");
    first [reflexivity | simpl; lia].
Defined.

Lemma pluckAddress_case_insensitive_witness :
  let address : gmap string jsval :=
    {[ "country" := JStr "GB"; "postcode" := JStr "sw1a 1aa" ]} in
  address !! "postcode" = Some (JStr "sw1a 1aa")
  /\ ascii_only "sw1a 1aa" = true
  /\ @pluckAddress reference_engine
       (JObj (<["postcode" := JStr (@toUpperCase reference_engine "sw1a 1aa")]>
                address))
     = @pluckAddress reference_engine (JObj address).
Proof.
  intros address. split; [reflexivity|]. split; [reflexivity|].
  apply (@pluckAddress_case_insensitive reference_engine address "sw1a 1aa");
    reflexivity.
Defined.

Lemma pluckAddress_twice_at_most_one_space_witness :
  let address := JObj {[ "country" := JStr "GB"; "postcode" := JStr "sw1a 1aa" ]} in
  exists once,
    @pluckAddress reference_engine address = Return once
    /\ ascii_only "sw1a 1aa" = true
    /\ count_spaces "sw1a 1aa" <= 1
    /\ @pluckAddress reference_engine once = Return once.
Proof.
  intros address. eexists. split; [reflexivity|]. split; [reflexivity|].
  split; [simpl; lia|].
  apply (@pluckAddress_twice_at_most_one_space reference_engine address _
           "sw1a 1aa");
    [reflexivity | reflexivity | simpl; lia | reflexivity].
Defined.

(** A branded, long button on a browser without Google Pay: the vendor's
    button of type "buy", with the default theme and height. *)
Lemma PaymentRequestExpressComponent_style_witness :
  let button := JObj {[ "is_branded" := JBool true;
                        "branded_type" := JStr "long";
                        "type" := JStr "donate" ]} in
  let handle := {| handle_options := JObj ∅; handle_probe := Pending |} in
  exists style,
    @PaymentRequestExpressComponent (button_imports button) reference_engine _
      false (Some handle)
      = Return (Some (PaymentRequestButtonElement style handle))
    /\ own_member (own_member style "paymentRequestButton") "height" = JStr "48px"
    /\ own_member (own_member style "paymentRequestButton") "theme" = JStr "dark"
    /\ own_member (own_member style "paymentRequestButton") "type" = JStr "buy".
Proof.
  intros button handle. eexists. split; [reflexivity|].
  destruct (@PaymentRequestExpressComponent_style (button_imports button)
              reference_engine _ false handle _ eq_refl)
    as (_ & Hheight & Htheme & Htype).
  split; [exact (Hheight eq_refl)|]. split; [exact Htheme | exact Htype].
Defined.

Lemma PaymentRequestExpressComponent_null_witness :
  @PaymentRequestExpressComponent (button_imports (JObj ∅)) reference_engine
    reference_handle true None = Return None
  /\ (None : option (element reference_handle)) = None.
Proof.
  split; [reflexivity|].
  apply (@PaymentRequestExpressComponent_null (button_imports (JObj ∅))
           reference_engine reference_handle true None None).
  reflexivity.
Defined.

(** A button that is both custom and branded is rendered as the custom
    button. *)
Lemma PaymentRequestExpressComponent_precedence_witness :
  let button := JObj {[ "is_custom" := JBool true; "is_branded" := JBool true ]} in
  let handle := {| handle_options := JObj ∅; handle_probe := Pending |} in
  @PaymentRequestExpressComponent (button_imports button) reference_engine _
    true (Some handle)
    = Return (Some (CustomButton handle))
  /\ (CustomButton handle = CustomButton handle <->
      truthy (own_member button "is_custom") = true).
Proof.
  intros button handle. split; [reflexivity|].
  apply (@PaymentRequestExpressComponent_precedence (button_imports button)
           reference_engine _ true handle (CustomButton handle)).
  reflexivity.
Defined.

(** A height that is a plain object with an own [toString] that is not a
    function cannot be converted: the component throws although the rest
    of the server data is in order. *)
Example PaymentRequestExpressComponent_height_throws :
  let button := JObj {[ "height" := JObj {[ "toString" := JStr "x" ]} ]} in
  throws (@PaymentRequestExpressComponent (button_imports button)
            reference_engine reference_handle false None) = true.
Proof. reflexivity. Qed.

(** A height given as a number is shown by its digits. *)
Example PaymentRequestExpressComponent_height_number :
  let button := JObj {[ "height" := JNum 40 ]} in
  let handle := {| handle_options := JObj ∅; handle_probe := Pending |} in
  @PaymentRequestExpressComponent (button_imports button) reference_engine _
    false (Some handle)
  = Return (Some (PaymentRequestButtonElement
      (JObj {[ "paymentRequestButton" :=
                 JObj {[ "type" := JStr "default"; "theme" := JStr "dark";
                         "height" := JStr "40px" ]} ]})
      handle)).
Proof. reflexivity. Qed.
